(** * Action executors of chaosblade-exec-os: process stop and file append

    A shallow embedding of [exec/process_stop.go] (the process-stop executor
    and the file-append executor that follows it in the same source file) and
    the properties of the Action Spec / Executor contract that hold of it.

    Both executors are parameter marshalling and one delegation: they
    validate the flag mapping of the experiment model, build one argument
    string with [fmt.Sprintf] and hand it to the bound channel's [Run].
    The only effect is that call, so [Exec] is embedded as a function that
    returns the response together with the list of [Run] calls it made. *)

From Stdlib Require Import ZArith String Ascii List Bool Lia.
From stdpp Require Import gmap strings pretty.

Open Scope string_scope.
Open Scope Z_scope.

(** ** The parts of the Go runtime the executors use *)

Module Go.

(** The double-quote character, which the format strings embed. *)
Definition dq : string := String (ascii_of_nat 34) EmptyString.

(** An operand of [fmt.Sprintf]: the executors pass strings, ints and
    bools. *)
Inductive Arg : Type :=
| AStr (s : string)
| AInt (n : Z)
| ABool (b : bool).

(** [%t] *)
Definition fmt_t (b : bool) : string := if b then "true" else "false".

(** [%d] *)
Definition fmt_d (n : Z) : string := pretty n.

(** The operand as [%v] prints it and the name of its Go type, for the
    text [fmt] emits when verb and operand do not fit. *)
Definition arg_value (a : Arg) : string :=
  match a with
  | AStr s => s
  | AInt n => fmt_d n
  | ABool b => fmt_t b
  end.

Definition arg_type (a : Arg) : string :=
  match a with
  | AStr _ => "string"
  | AInt _ => "int"
  | ABool _ => "bool"
  end.

Definition bad_verb (v : ascii) (a : Arg) : string :=
  "%!" +:+ String v ("(" +:+ arg_type a +:+ "=" +:+ arg_value a +:+ ")").

(** One verb applied to one operand: [%v] prints any operand, [%s] a
    string, [%d] an int, [%t] a bool. *)
Definition verb (v : ascii) (a : Arg) : string :=
  if Ascii.eqb v "v" then arg_value a
  else
    match a with
    | AStr s => if Ascii.eqb v "s" then s else bad_verb v a
    | AInt n => if Ascii.eqb v "d" then fmt_d n else bad_verb v a
    | ABool b => if Ascii.eqb v "t" then fmt_t b else bad_verb v a
    end.

Fixpoint extra (args : list Arg) : string :=
  match args with
  | [] => EmptyString
  | [a] => arg_type a +:+ "=" +:+ arg_value a
  | a :: rest => arg_type a +:+ "=" +:+ arg_value a +:+ ", " +:+ extra rest
  end.

(** [fmt.Sprintf] for the verbs [%s], [%d], [%t], [%v] and [%%], without
    flags, width or precision: the forms the source uses. *)
Fixpoint Sprintf (format : string) (args : list Arg) : string :=
  match format with
  | EmptyString =>
      match args with
      | [] => EmptyString
      | _ => "%!(EXTRA " +:+ extra args +:+ ")"
      end
  | String c rest =>
      if Ascii.eqb c "%" then
        match rest with
        | EmptyString => "%!(NOVERB)"
        | String v rest' =>
            if Ascii.eqb v "%" then String "%" (Sprintf rest' args)
            else
              match args with
              | [] => "%!" +:+ String v "(MISSING)" +:+ Sprintf rest' []
              | a :: args' => verb v a +:+ Sprintf rest' args'
              end
        end
      else String c (Sprintf rest args)
  end.

(** *** [strconv.Atoi], for a 64-bit [int] *)

Definition maxInt : Z := 2 ^ 63 - 1.
Definition minInt : Z := - 2 ^ 63.

Definition digit (c : ascii) : option Z :=
  let n := Z.of_N (N_of_ascii c) in
  if (48 <=? n) && (n <=? 57) then Some (n - 48) else None.

Fixpoint digits (s : string) (acc : Z) : option Z :=
  match s with
  | EmptyString => Some acc
  | String c rest =>
      match digit c with
      | Some d => digits rest (acc * 10 + d)
      | None => None
      end
  end.

(** An optional sign, then one or more decimal digits, the value within
    the range of [int]; [None] stands for the [*NumError] (syntax or
    range) that the callers only test against [nil]. *)
Definition Atoi (s : string) : option Z :=
  match s with
  | EmptyString => None
  | String c rest =>
      let neg := Ascii.eqb c "-" in
      let body := if neg || Ascii.eqb c "+" then rest else s in
      match body with
      | EmptyString => None
      | _ =>
          match digits body 0 with
          | None => None
          | Some n =>
              let v := if neg then - n else n in
              if (minInt <=? v) && (v <=? maxInt) then Some v else None
          end
      end
  end.

(** *** [path.Join] and [path.Clean] *)

(** The text between slashes. *)
Fixpoint components (p : string) : list string :=
  match p with
  | EmptyString => [EmptyString]
  | String c rest =>
      if Ascii.eqb c "/" then EmptyString :: components rest
      else
        match components rest with
        | x :: xs => String c x :: xs
        | [] => [String c EmptyString]
        end
  end.

(** One element against the elements kept so far, the last one first:
    empty and [.] elements vanish, [..] removes the element before it,
    is dropped at the root and is kept at the head of a relative path. *)
Definition clean_step (rooted : bool) (kept : list string) (e : string)
  : list string :=
  if String.eqb e EmptyString || String.eqb e "." then kept
  else if String.eqb e ".." then
    match kept with
    | top :: below => if String.eqb top ".." then e :: kept else below
    | [] => if rooted then [] else [e]
    end
  else e :: kept.

Definition Clean (p : string) : string :=
  match p with
  | EmptyString => "."
  | String c _ =>
      let rooted := Ascii.eqb c "/" in
      let kept := rev (fold_left (clean_step rooted) (components p) []) in
      if rooted then "/" +:+ String.concat "/" kept
      else
        match kept with
        | [] => "."
        | _ => String.concat "/" kept
        end
  end.

(** Leading empty elements are skipped and the rest is joined with
    slashes and cleaned; no non-empty element gives the empty string. *)
Fixpoint Join (elem : list string) : string :=
  match elem with
  | [] => EmptyString
  | e :: rest =>
      if String.eqb e EmptyString then Join rest
      else Clean (String.concat "/" elem)
  end.

End Go.

Import Go.

(** ** The collaborators declared in chaosblade-spec-go *)

(** Modelled from the spec: the response-code table [spec.Code] is declared
    in chaosblade-spec-go, which is not part of the source at hand.  The
    error taxonomy of the specification (ServerError, IllegalParameters,
    CommandNotFound) is kept as an enumeration; [Other] carries any code
    that only the external binary produces. *)
Inductive CodeType : Type :=
| OK
| ServerError
| IllegalParameters
| CommandNotFound
| Other (code : Z).

(** Modelled from the spec: "result of an attempted action, success or
    failure code plus message". *)
Record Response : Type := mkResponse {
  Code : CodeType;
  Success : bool;
  Err : string;
  Result : string
}.

(** Modelled from the spec: [spec.ReturnFail] builds the failure response
    of the given class with the given message. *)
Definition ReturnFail (code : CodeType) (err : string) : Response :=
  {| Code := code; Success := false; Err := err; Result := EmptyString |}.

(** Modelled from the spec: the execution context "carries a marker
    distinguishing apply fault from reverse fault (destroy) requests";
    whatever else the caller put in the context is [ctx_values]. *)
Record Context : Type := mkContext {
  destroy_marker : option string;
  ctx_values : list (string * string)
}.

(** Modelled from the spec: [spec.IsDestroy] tells whether "the execution
    context indicates a destroy/recover request"; it returns the marker and
    whether it is present. *)
Definition IsDestroy (ctx : Context) : string * bool :=
  match destroy_marker ctx with
  | Some suid => (suid, true)
  | None => (EmptyString, false)
  end.

(** Modelled from the spec: the experiment model is "a resolved mapping
    from flag name to string value". *)
Record ExpModel : Type := mkExpModel {
  ActionFlags : gmap string string
}.

(** Indexing a Go map: the zero value for a key that is absent. *)
Definition flag (model : ExpModel) (name : string) : string :=
  default EmptyString (ActionFlags model !! name).

(** Modelled from the spec: the channel abstraction,
    [Run(context, executablePath, argumentString) -> Response] and
    [GetScriptPath() -> string]. *)
Record Channel : Type := mkChannel {
  Run : Context -> string -> string -> Response;
  GetScriptPath : string
}.

(** Modelled from the spec: what the executing host decides, the "global
    mutable debug flag read at call time" ([util.Debug]), the file test
    [util.IsExist] and [IsCommandAvailable(name) -> bool] of the local
    channel. *)
Record Host : Type := mkHost {
  Debug : bool;
  IsExist : string -> bool;
  IsCommandAvailable : string -> bool
}.

(** ** Effects: the calls to [Run] *)

Record RunCall : Type := mkRunCall {
  run_ctx : Context;
  run_script : string;
  run_args : string
}.

(** A result together with the [Run] calls made on the way to it. *)
Definition Eff (A : Type) : Type := (A * list RunCall)%type.

Definition ret {A : Type} (a : A) : Eff A := (a, []).

Definition call_Run (ch : Channel) (ctx : Context) (script args : string)
  : Eff Response :=
  (Run ch ctx script args,
   [ {| run_ctx := ctx; run_script := script; run_args := args |} ]).

Definition response {A : Type} (e : Eff A) : A := fst e.
Definition runs {A : Type} (e : Eff A) : list RunCall := snd e.

(** ** process stop *)

Definition StopProcessBin : string := "chaos_stopprocess".

Module StopProcessExecutor.

Record t : Type := mk { channel : option Channel }.

Definition Name : string := "stop".

Definition stopProcess (ch : Channel) (flags : string) (ctx : Context)
  : Eff Response :=
  let flags := Sprintf "--start %s" [AStr flags] in
  call_Run ch ctx (Join [GetScriptPath ch; StopProcessBin]) flags.

Definition recoverProcess (ch : Channel) (flags : string) (ctx : Context)
  : Eff Response :=
  let flags := Sprintf "--stop %s" [AStr flags] in
  call_Run ch ctx (Join [GetScriptPath ch; StopProcessBin]) flags.

Definition Exec (spe : t) (host : Host) (uid : string) (ctx : Context)
  (model : ExpModel) : Eff Response :=
  match channel spe with
  | None => ret (ReturnFail ServerError "channel is nil")
  | Some ch =>
      let process := flag model "process" in
      let processCmd := flag model "process-cmd" in
      if String.eqb process EmptyString && String.eqb processCmd EmptyString
      then ret (ReturnFail IllegalParameters "less process matcher")
      else
        let ignoreProcessNotFound :=
          String.eqb (flag model "ignore-not-found") "true" in
        let flags := Sprintf "--debug=%t" [ABool (Debug host)] in
        let flags :=
          if negb (String.eqb process EmptyString) then
            Sprintf ("%s --process " +:+ dq +:+ "%s" +:+ dq)
              [AStr flags; AStr process]
          else if negb (String.eqb processCmd EmptyString) then
            Sprintf ("%s --process-cmd " +:+ dq +:+ "%s" +:+ dq)
              [AStr flags; AStr processCmd]
          else flags in
        let flags :=
          if ignoreProcessNotFound then
            Sprintf "%s --ignore-not-found=%t"
              [AStr flags; ABool ignoreProcessNotFound]
          else flags in
        if snd (IsDestroy ctx) then recoverProcess ch flags ctx
        else stopProcess ch flags ctx
  end.

Definition SetChannel (spe : t) (ch : option Channel) : t :=
  {| channel := ch |}.

End StopProcessExecutor.

(** ** file append *)

Definition AppendFileBin : string := "chaos_appendfile".

(** The first of [echo] and [kill] that the host lacks, as the error
    message; [None] is the [nil] error. *)
Fixpoint first_missing (host : Host) (commands : list string) : option string :=
  match commands with
  | [] => None
  | command :: rest =>
      if negb (IsCommandAvailable host command)
      then Some (Sprintf "%s command not found" [AStr command])
      else first_missing host rest
  end.

Definition checkAppendFileExpEnv (host : Host) : option string :=
  let commands := ["echo"; "kill"] in
  first_missing host commands.

Module FileAppendActionExecutor.

Record t : Type := mk { channel : option Channel }.

Definition Name : string := "append".

Definition start (ch : Channel) (host : Host) (filepath content : string)
  (count interval : Z) (escape enableBase64 : bool) (ctx : Context)
  : Eff Response :=
  let flags :=
    Sprintf
      ("--start --filepath " +:+ dq +:+ "%s" +:+ dq +:+ " --content " +:+ dq
       +:+ "%s" +:+ dq +:+ " --count %d --interval %d --debug=%t")
      [AStr filepath; AStr content; AInt count; AInt interval;
       ABool (Debug host)] in
  let flags :=
    if escape then Sprintf "%s --escape=true" [AStr flags] else flags in
  let flags :=
    if enableBase64 then Sprintf "%s --enable-base64=true" [AStr flags]
    else flags in
  call_Run ch ctx (Join [GetScriptPath ch; AppendFileBin]) flags.

Definition stop (ch : Channel) (host : Host) (filepath : string)
  (ctx : Context) : Eff Response :=
  call_Run ch ctx (Join [GetScriptPath ch; AppendFileBin])
    (Sprintf "--stop --filepath %s --debug=%t"
       [AStr filepath; ABool (Debug host)]).

(** The two blocks that parse [count] and [interval] either return the
    failure response ([inl]) or go on with the value ([inr]). *)
Definition Exec (f : t) (host : Host) (uid : string) (ctx : Context)
  (model : ExpModel) : Eff Response :=
  match checkAppendFileExpEnv host with
  | Some err => ret (ReturnFail CommandNotFound err)
  | None =>
  match channel f with
  | None => ret (ReturnFail ServerError "channel is nil")
  | Some ch =>
  let filepath := flag model "filepath" in
  if snd (IsDestroy ctx) then stop ch host filepath ctx
  else
  (* default 1 *)
  let count := 1 in
  (* 1000 ms *)
  let interval := 1 in
  let content := flag model "content" in
  let countStr := flag model "count" in
  let intervalStr := flag model "interval" in
  match
    (if negb (String.eqb countStr EmptyString) then
       match Atoi countStr with
       | Some count =>
           if count <? 1 then
             inl (ReturnFail IllegalParameters
                    "--count value must be a positive integer")
           else inr count
       | None =>
           inl (ReturnFail IllegalParameters
                  "--count value must be a positive integer")
       end
     else inr count)
  with
  | inl failure => ret failure
  | inr count =>
  match
    (if negb (String.eqb intervalStr EmptyString) then
       match Atoi intervalStr with
       | Some interval =>
           if interval <? 1 then
             inl (ReturnFail IllegalParameters
                    "--interval value must be a positive integer")
           else inr interval
       | None =>
           inl (ReturnFail IllegalParameters
                  "--interval value must be a positive integer")
       end
     else inr interval)
  with
  | inl failure => ret failure
  | inr interval =>
  let escape := String.eqb (flag model "escape") "true" in
  let enableBase64 := String.eqb (flag model "enable-base64") "true" in
  if negb (IsExist host filepath) then
    ret (ReturnFail IllegalParameters
           (Sprintf "the %s file does not exist" [AStr filepath]))
  else start ch host filepath content count interval escape enableBase64 ctx
  end end end end.

Definition SetChannel (f : t) (ch : option Channel) : t :=
  {| channel := ch |}.

End FileAppendActionExecutor.

(** ** The action descriptors *)

Module spec.

(** Modelled from the spec: a flag is a "name, human description,
    required/optional, whether it takes no argument (boolean switch)"; the
    fields a Go literal leaves out are false. *)
Record ExpFlag : Type := mkExpFlag {
  Name : string;
  Desc : string;
  NoArgs : bool;
  Required : bool
}.

(** Modelled from the spec: [spec.BaseExpActionCommandSpec], the "static
    declaration of an action's name, aliases, description, accepted flags
    (matchers + action-specific flags), and the external binary name it maps
    to", with the executor it carries. *)
Record BaseExpActionCommandSpec (E : Type) : Type := mkBaseExpActionCommandSpec {
  ActionMatchers : list ExpFlag;
  ActionFlags : list ExpFlag;
  ActionExecutor : E;
  ActionLongDesc : string;
  ActionExample : string;
  ActionPrograms : list string;
  ActionCategories : list string
}.

Arguments ActionMatchers {E} _.
Arguments ActionFlags {E} _.
Arguments ActionExecutor {E} _.
Arguments ActionLongDesc {E} _.
Arguments ActionExample {E} _.
Arguments ActionPrograms {E} _.
Arguments ActionCategories {E} _.

End spec.

Section Descriptors.

(** The category names [category.SystemProcess] and [category.SystemFile]
    and the shared file matchers [fileCommFlags] are declared in files that
    are not at hand. *)
Variables (SystemProcess SystemFile : string)
  (fileCommFlags : list spec.ExpFlag).

Definition NewStopProcessActionCommandSpec
  : spec.BaseExpActionCommandSpec StopProcessExecutor.t :=
  {| spec.ActionMatchers :=
       [ {| spec.Name := "process"; spec.Desc := "Process name";
            spec.NoArgs := false; spec.Required := false |};
         {| spec.Name := "process-cmd"; spec.Desc := "Process name in command";
            spec.NoArgs := false; spec.Required := false |} ];
     spec.ActionFlags := [];
     spec.ActionExecutor := {| StopProcessExecutor.channel := None |};
     spec.ActionLongDesc := EmptyString;
     spec.ActionExample :=
       "
# Pause the process that contains the "
     +:+ dq +:+ "SimpleHTTPServer"
     +:+ dq +:+ " keyword
blade create process stop --process SimpleHTTPServer

# Pause the Java process
blade create process stop --process-cmd java

# Return success even if the process not found
blade create process stop --process demo --ignore-not-found";
     spec.ActionPrograms := [StopProcessBin];
     spec.ActionCategories := [SystemProcess] |}.

Definition NewFileAppendActionSpec
  : spec.BaseExpActionCommandSpec FileAppendActionExecutor.t :=
  {| spec.ActionMatchers := fileCommFlags;
     spec.ActionFlags :=
       [ {| spec.Name := "content"; spec.Desc := "append content";
            spec.NoArgs := false; spec.Required := true |};
         {| spec.Name := "count"; spec.Desc := "the number of append count, default 1";
            spec.NoArgs := false; spec.Required := false |};
         {| spec.Name := "interval"; spec.Desc := "append interval, default 1s";
            spec.NoArgs := false; spec.Required := false |};
         {| spec.Name := "escape";
            spec.Desc := "symbols to escape, use --escape, at this --count is invalid";
            spec.NoArgs := true; spec.Required := false |};
         {| spec.Name := "enable-base64";
            spec.Desc := "append content enable base64 encoding";
            spec.NoArgs := true; spec.Required := false |} ];
     spec.ActionExecutor := {| FileAppendActionExecutor.channel := None |};
     spec.ActionLongDesc := EmptyString;
     spec.ActionExample :=
       "
# Appends the content "
     +:+ dq +:+ "HELLO WORLD"
     +:+ dq +:+ " to the /home/logs/nginx.log file
blade create file append --filepath=/home/logs/nginx.log --content="
     +:+ dq +:+ "HELL WORLD"
     +:+ dq +:+ "

# Appends the content "
     +:+ dq +:+ "HELLO WORLD"
     +:+ dq +:+ " to the /home/logs/nginx.log file, interval 10 seconds
blade create file append --filepath=/home/logs/nginx.log --content="
     +:+ dq +:+ "HELL WORLD"
     +:+ dq +:+ " --interval 10

# Appends the content "
     +:+ dq +:+ "HELLO WORLD"
     +:+ dq +:+ " to the /home/logs/nginx.log file, enable base64 encoding
blade create file append --filepath=/home/logs/nginx.log --content=SEVMTE8gV09STEQ=

# mock interface timeout exception
blade create file append --filepath=/home/logs/nginx.log --content="
     +:+ dq +:+ "@{DATE:+%Y-%m-%d %H:%M:%S} ERROR invoke getUser timeout [@{RANDOM:100-200}]ms abc  mock exception"
     +:+ dq +:+ "
";
     spec.ActionPrograms := [AppendFileBin];
     spec.ActionCategories := [SystemFile] |}.

End Descriptors.

Module StopProcessActionCommandSpec.

Definition Name : string := "stop".

Definition Aliases : list string := ["f"].

Definition ShortDesc : string := "process fake death".

Definition LongDesc (s : spec.BaseExpActionCommandSpec StopProcessExecutor.t)
  : string :=
  if negb (String.eqb (spec.ActionLongDesc s) EmptyString)
  then spec.ActionLongDesc s
  else "process fake death by process id or process name".

End StopProcessActionCommandSpec.

Module FileAppendActionSpec.

Definition Name : string := "append".

Definition Aliases : list string := [].

Definition ShortDesc : string := "File content append".

Definition LongDesc (f : spec.BaseExpActionCommandSpec FileAppendActionExecutor.t)
  : string := "File content append. ".

End FileAppendActionSpec.

(** ** Vocabulary of the properties *)

(** A failure response of the given class. *)
Definition fails_with (code : CodeType) (e : Eff Response) : Prop :=
  Code (response e) = code /\ Success (response e) = false.

(** How many positions of [hay] the text [needle] starts at. *)
Fixpoint occurrences (needle hay : string) : nat :=
  ((if String.prefix needle hay then 1 else 0)
   + match hay with
     | EmptyString => 0
     | String _ rest => occurrences needle rest
     end)%nat.

Definition contains (needle hay : string) : bool :=
  (0 <? occurrences needle hay)%nat.

(** The three shapes in which the executors write a flag:
    [--name "value"], [--name value] and [--name=value]. *)
Inductive Serialised : Type :=
| Quoted (name value : string)
| Bare (name value : string)
| Assigned (name value : string).

Definition flag_name (f : Serialised) : string :=
  match f with
  | Quoted name _ | Bare name _ | Assigned name _ => name
  end.

Definition render_flag (f : Serialised) : string :=
  match f with
  | Quoted name value => "--" +:+ name +:+ " " +:+ dq +:+ value +:+ dq
  | Bare name value => "--" +:+ name +:+ " " +:+ value
  | Assigned name value => "--" +:+ name +:+ "=" +:+ value
  end.

(** The mode flag followed by the flags, each after one space. *)
Fixpoint render (mode : string) (fs : list Serialised) : string :=
  match fs with
  | [] => mode
  | f :: rest => render (mode +:+ " " +:+ render_flag f) rest
  end.

(** The mode flag that leads the argument string. *)
Definition mode_flag (ctx : Context) : string :=
  if snd (IsDestroy ctx) then "--stop" else "--start".

(** The matcher process stop serialises: the process name when there is
    one, the command substring otherwise. *)
Definition process_matcher (model : ExpModel) : Serialised :=
  if String.eqb (flag model "process") EmptyString
  then Quoted "process-cmd" (flag model "process-cmd")
  else Quoted "process" (flag model "process").

(** A boolean switch, written only when its flag is the text [true]. *)
Definition switch (model : ExpModel) (name : string) : list Serialised :=
  if String.eqb (flag model name) "true" then [Assigned name "true"] else [].

(** The value of [count] or [interval]: 1 when the flag is empty, the
    parsed integer when it is at least 1, nothing otherwise. *)
Definition positive_or_default (s : string) : option Z :=
  if String.eqb s EmptyString then Some 1
  else
    match Atoi s with
    | Some n => if n <? 1 then None else Some n
    | None => None
    end.

(** A flag value that is supplied and is not a positive integer. *)
Definition not_positive (s : string) : Prop :=
  s <> EmptyString /\
  match Atoi s with
  | Some n => n < 1
  | None => True
  end.

(** The flags that come from the flag mapping: all but the [--debug]
    passthrough of the global. *)
Definition from_model (fs : list Serialised) : list Serialised :=
  List.filter (fun g => negb (String.eqb (flag_name g) "debug")) fs.

(** The fourth testable property of the specification, read literally:
    the text begins with [--start] and every flag of the model occurs in it
    once, as [--name "value"]. *)
Definition every_flag_quoted_once (model : ExpModel) (args : string) : Prop :=
  String.prefix "--start" args = true
  /\ forall name value : string,
       ActionFlags model !! name = Some value ->
       occurrences (render_flag (Quoted name value)) args = 1%nat.

(** The requests that pass every local check. *)
Definition stop_request_valid (spe : StopProcessExecutor.t)
  (model : ExpModel) : Prop :=
  StopProcessExecutor.channel spe <> None
  /\ ~ (flag model "process" = EmptyString
        /\ flag model "process-cmd" = EmptyString).

Definition append_request_valid (f : FileAppendActionExecutor.t)
  (host : Host) (ctx : Context) (model : ExpModel) : Prop :=
  checkAppendFileExpEnv host = None
  /\ FileAppendActionExecutor.channel f <> None
  /\ (snd (IsDestroy ctx) = false ->
      ~ not_positive (flag model "count")
      /\ ~ not_positive (flag model "interval")
      /\ IsExist host (flag model "filepath") = true).

(** ** Sample collaborators and requests *)

(** A channel that answers with what it was asked to run. *)
Definition echo_channel : Channel :=
  {| Run := fun _ script args =>
       {| Code := OK; Success := true; Err := EmptyString;
          Result := script +:+ " " +:+ args |};
     GetScriptPath := "/opt/chaosblade/bin" |}.

(** A host with [echo] and [kill], where only [/tmp/a.log] exists. *)
Definition full_host : Host :=
  {| Debug := false;
     IsExist := fun p => String.eqb p "/tmp/a.log";
     IsCommandAvailable := fun _ => true |}.

(** A host without [kill]. *)
Definition bare_host : Host :=
  {| Debug := false;
     IsExist := fun p => String.eqb p "/tmp/a.log";
     IsCommandAvailable := fun c => String.eqb c "echo" |}.

Definition create_ctx : Context :=
  {| destroy_marker := None; ctx_values := [] |}.

Definition destroy_ctx : Context :=
  {| destroy_marker := Some "7c1f7afc281482c8"; ctx_values := [] |}.

Definition model_of (flags : list (string * string)) : ExpModel :=
  {| ActionFlags := list_to_map flags |}.

Definition bound_stop : StopProcessExecutor.t :=
  {| StopProcessExecutor.channel := Some echo_channel |}.

Definition unbound_stop : StopProcessExecutor.t :=
  {| StopProcessExecutor.channel := None |}.

Definition bound_append : FileAppendActionExecutor.t :=
  {| FileAppendActionExecutor.channel := Some echo_channel |}.

Definition unbound_append : FileAppendActionExecutor.t :=
  {| FileAppendActionExecutor.channel := None |}.


(** No two dashes in a row: a value that cannot be taken for the start of
    a flag. *)
Definition dash_free (s : string) : bool := negb (contains "--" s).

(** ** Vocabulary for the descriptors and for single flags *)

(** The flag names a descriptor declares, matchers first. *)
Definition declared_flags {E : Type} (s : spec.BaseExpActionCommandSpec E)
  : list string :=
  map spec.Name (spec.ActionMatchers s ++ spec.ActionFlags s).

(** The model with one flag set, and with one flag removed. *)
Definition with_flag (model : ExpModel) (name value : string) : ExpModel :=
  {| ActionFlags := <[name := value]> (ActionFlags model) |}.

Definition without_flag (model : ExpModel) (name : string) : ExpModel :=
  {| ActionFlags := delete name (ActionFlags model) |}.

(** The text in front of a file name: nothing, or a directory and its
    slash. *)
Definition is_dir_prefix (dir : string) : Prop :=
  dir = EmptyString \/ exists d : string, dir = d +:+ "/".

(** A plain file name: no slash in it, and not one of the elements that
    [Clean] drops or resolves. *)
Definition plain_name (name : string) : Prop :=
  components name = [name]
  /\ String.eqb name EmptyString || String.eqb name "." = false
  /\ String.eqb name ".." = false.
(** ** Strings *)

Lemma append_cons (c : ascii) (s t : string) :
  String c s +:+ t = String c (s +:+ t).
Proof. reflexivity. Qed.

Lemma append_nil_r (s : string) : s +:+ EmptyString = s.
Proof.
  induction s as [|c s IH]; [reflexivity |].
  now rewrite append_cons, IH.
Qed.

Lemma append_assoc (a b c : string) : (a +:+ b) +:+ c = a +:+ b +:+ c.
Proof.
  induction a as [|x a IH]; [reflexivity |].
  now rewrite !append_cons, IH.
Qed.

Lemma prefix_cons (c : ascii) (p s : string) :
  String.prefix (String c p) (String c s) = String.prefix p s.
Proof. simpl. destruct (ascii_dec c c); [reflexivity | congruence]. Qed.

Lemma prefix_append (s t : string) : String.prefix s (s +:+ t) = true.
Proof.
  induction s as [|c s IH].
  - now destruct t.
  - now rewrite append_cons, prefix_cons.
Qed.

Lemma prefix_append_trans (p s t : string) :
  String.prefix p s = true -> String.prefix p (s +:+ t) = true.
Proof.
  revert s; induction p as [|c p IH]; intros s H.
  - now destruct (s +:+ t).
  - destruct s as [|d s]; [discriminate |].
    rewrite append_cons. simpl in *.
    destruct (ascii_dec c d); [now apply IH | discriminate].
Qed.

Lemma occurrences_cons (needle : string) (c : ascii) (hay : string) :
  occurrences needle (String c hay)
  = ((if String.prefix needle (String c hay) then 1 else 0)
     + occurrences needle hay)%nat.
Proof. reflexivity. Qed.

Lemma occurrences_append_l (needle a b : string) :
  (occurrences needle b <= occurrences needle (a +:+ b))%nat.
Proof.
  induction a as [|c a IH]; [reflexivity |].
  rewrite append_cons, occurrences_cons. lia.
Qed.

Lemma contains_append_l (needle a b : string) :
  contains needle b = true -> contains needle (a +:+ b) = true.
Proof.
  unfold contains. rewrite !Nat.ltb_lt.
  pose proof (occurrences_append_l needle a b). lia.
Qed.

Lemma contains_prefix (needle hay : string) :
  String.prefix needle hay = true -> contains needle hay = true.
Proof.
  unfold contains. intros H. apply Nat.ltb_lt.
  destruct hay as [|c hay].
  - unfold occurrences. rewrite H. lia.
  - rewrite occurrences_cons, H. lia.
Qed.

Lemma contains_middle (needle a b : string) :
  contains needle (a +:+ needle +:+ b) = true.
Proof. apply contains_append_l, contains_prefix, prefix_append. Qed.

Lemma contains_append_r (needle a b : string) :
  contains needle a = true -> contains needle (a +:+ b) = true.
Proof.
  unfold contains. rewrite !Nat.ltb_lt.
  induction a as [|c a IH].
  - simpl. destruct needle; [| simpl; lia].
    intros _. destruct b; simpl; lia.
  - rewrite append_cons, !occurrences_cons.
    destruct (String.prefix needle (String c a)) eqn:E.
    + intros _. rewrite <- append_cons.
      rewrite (prefix_append_trans _ _ b E). lia.
    + intros H. simpl in H. specialize (IH H). lia.
Qed.

(** ** The models of the Go library on the library's documented cases *)

Example Atoi_cases :
  map Atoi ["12"; "+5"; "-3"; "007"; "abc"; "1_0"; " 1"; "1.5"; "+"; "-";
            "9223372036854775807"; "9223372036854775808";
            "-9223372036854775808"; "-9223372036854775809"]
  = [Some 12; Some 5; Some (-3); Some 7; None; None; None; None; None; None;
     Some 9223372036854775807; None; Some (-9223372036854775808); None].
Proof. vm_compute. reflexivity. Qed.

Example Atoi_empty : Atoi EmptyString = None.
Proof. reflexivity. Qed.

Example Clean_cases :
  map Clean ["a/c"; "a//c"; "a/c/."; "a/c/b/.."; "/../a/c"; "/../a/b/../././/c";
             "abc/"; "../../x"; "a/../.."; "/"; "."]
  = ["a/c"; "a/c"; "a/c"; "a/c"; "/a/c"; "/a/c"; "abc"; "../../x"; "..";
     "/"; "."].
Proof. vm_compute. reflexivity. Qed.

Example Join_cases :
  map Join [["a"; "b"; "c"]; ["a"; "b/c"]; ["a/b"; "c"]; ["a/b"; "/c"];
            ["a/b"; "../../../xyz"]; ["a"; EmptyString];
            [EmptyString; "a"]; [EmptyString; EmptyString]]
  = ["a/b/c"; "a/b/c"; "a/b/c"; "a/b/c"; "../xyz"; "a"; "a"; EmptyString].
Proof. vm_compute. reflexivity. Qed.

Example Sprintf_cases :
  map (fun '(format, args) => Sprintf format args)
    [("%s has %d items: %t", [AStr "cart"; AInt 3; ABool true]);
     ("%d%%", [AInt (-7)]);
     ("%d", [AStr "x"]);
     ("%s and %s", [AStr "x"]);
     ("x", [AStr "y"; AInt 3])]
  = ["cart has 3 items: true"; "-7%"; "%!d(string=x)";
     "x and %!s(MISSING)"; "x%!(EXTRA string=y, int=3)"].
Proof. vm_compute. reflexivity. Qed.

(** ** The format strings of the source, evaluated *)

Ltac eval_format :=
  match goal with
  | |- context [Sprintf ?format _] =>
      let format' := eval vm_compute in format in
      change format with format'
  end.

Lemma Sprintf_start (flags : string) :
  Sprintf "--start %s" [AStr flags] = "--start " +:+ flags.
Proof. cbn. now rewrite append_nil_r. Qed.

Lemma Sprintf_stop (flags : string) :
  Sprintf "--stop %s" [AStr flags] = "--stop " +:+ flags.
Proof. cbn. now rewrite append_nil_r. Qed.

Lemma Sprintf_debug (b : bool) :
  Sprintf "--debug=%t" [ABool b] = "--debug=" +:+ fmt_t b.
Proof. cbn. now rewrite append_nil_r. Qed.

Lemma Sprintf_process (flags process : string) :
  Sprintf ("%s --process " +:+ dq +:+ "%s" +:+ dq) [AStr flags; AStr process]
  = flags +:+ " --process " +:+ dq +:+ process +:+ dq.
Proof. reflexivity. Qed.

Lemma Sprintf_process_cmd (flags processCmd : string) :
  Sprintf ("%s --process-cmd " +:+ dq +:+ "%s" +:+ dq)
    [AStr flags; AStr processCmd]
  = flags +:+ " --process-cmd " +:+ dq +:+ processCmd +:+ dq.
Proof. reflexivity. Qed.

Lemma Sprintf_ignore_not_found (flags : string) (b : bool) :
  Sprintf "%s --ignore-not-found=%t" [AStr flags; ABool b]
  = flags +:+ " --ignore-not-found=" +:+ fmt_t b.
Proof. cbn. now rewrite append_nil_r. Qed.

Lemma Sprintf_file_start (filepath content : string) (count interval : Z)
  (debug : bool) :
  Sprintf
    ("--start --filepath " +:+ dq +:+ "%s" +:+ dq +:+ " --content " +:+ dq
     +:+ "%s" +:+ dq +:+ " --count %d --interval %d --debug=%t")
    [AStr filepath; AStr content; AInt count; AInt interval; ABool debug]
  = "--start --filepath " +:+ dq +:+ filepath +:+ dq +:+ " --content " +:+ dq
    +:+ content +:+ dq +:+ " --count " +:+ fmt_d count +:+ " --interval "
    +:+ fmt_d interval +:+ " --debug=" +:+ fmt_t debug.
Proof. eval_format. cbn -[fmt_d fmt_t]. now rewrite append_nil_r. Qed.

Lemma Sprintf_escape (flags : string) :
  Sprintf "%s --escape=true" [AStr flags] = flags +:+ " --escape=true".
Proof. reflexivity. Qed.

Lemma Sprintf_enable_base64 (flags : string) :
  Sprintf "%s --enable-base64=true" [AStr flags]
  = flags +:+ " --enable-base64=true".
Proof. reflexivity. Qed.

Lemma Sprintf_file_stop (filepath : string) (debug : bool) :
  Sprintf "--stop --filepath %s --debug=%t" [AStr filepath; ABool debug]
  = "--stop --filepath " +:+ filepath +:+ " --debug=" +:+ fmt_t debug.
Proof. cbn -[fmt_t]. now rewrite append_nil_r. Qed.

Lemma Sprintf_not_found (command : string) :
  Sprintf "%s command not found" [AStr command]
  = command +:+ " command not found".
Proof. reflexivity. Qed.

Lemma Sprintf_not_exist (filepath : string) :
  Sprintf "the %s file does not exist" [AStr filepath]
  = "the " +:+ filepath +:+ " file does not exist".
Proof. reflexivity. Qed.

(** ** What each executor does, case by case *)

(** Both sides are appends of the same pieces, grouped differently. *)
Ltac same_text :=
  cbv [render render_flag app]; rewrite ?append_assoc; reflexivity.

Lemma stopProcess_calls (ch : Channel) (flags : string) (ctx : Context) :
  StopProcessExecutor.stopProcess ch flags ctx
  = call_Run ch ctx (Join [GetScriptPath ch; StopProcessBin])
      ("--start " +:+ flags).
Proof.
  unfold StopProcessExecutor.stopProcess. now rewrite Sprintf_start.
Qed.

Lemma recoverProcess_calls (ch : Channel) (flags : string) (ctx : Context) :
  StopProcessExecutor.recoverProcess ch flags ctx
  = call_Run ch ctx (Join [GetScriptPath ch; StopProcessBin])
      ("--stop " +:+ flags).
Proof.
  unfold StopProcessExecutor.recoverProcess. now rewrite Sprintf_stop.
Qed.

Lemma start_calls (ch : Channel) (host : Host) (filepath content : string)
  (count interval : Z) (escape enableBase64 : bool) (ctx : Context) :
  FileAppendActionExecutor.start ch host filepath content count interval
    escape enableBase64 ctx
  = call_Run ch ctx (Join [GetScriptPath ch; AppendFileBin])
      (render "--start"
         ([Quoted "filepath" filepath; Quoted "content" content;
           Bare "count" (fmt_d count); Bare "interval" (fmt_d interval);
           Assigned "debug" (fmt_t (Debug host))]
          ++ (if escape then [Assigned "escape" "true"] else [])
          ++ (if enableBase64 then [Assigned "enable-base64" "true"]
              else []))).
Proof.
  unfold FileAppendActionExecutor.start. rewrite Sprintf_file_start.
  destruct escape, enableBase64;
    rewrite ?Sprintf_escape, ?Sprintf_enable_base64; f_equal; same_text.
Qed.

Lemma stop_calls (ch : Channel) (host : Host) (filepath : string)
  (ctx : Context) :
  FileAppendActionExecutor.stop ch host filepath ctx
  = call_Run ch ctx (Join [GetScriptPath ch; AppendFileBin])
      (render "--stop"
         [Bare "filepath" filepath; Assigned "debug" (fmt_t (Debug host))]).
Proof.
  unfold FileAppendActionExecutor.stop. rewrite Sprintf_file_stop.
  f_equal; same_text.
Qed.

Section StopProcess.

Variables (host : Host) (uid : string) (ctx : Context) (model : ExpModel).

Lemma stop_Exec_unbound (spe : StopProcessExecutor.t) :
  StopProcessExecutor.channel spe = None ->
  StopProcessExecutor.Exec spe host uid ctx model
  = ret (ReturnFail ServerError "channel is nil").
Proof. intros H. unfold StopProcessExecutor.Exec. now rewrite H. Qed.

Lemma stop_Exec_no_matcher (spe : StopProcessExecutor.t) (ch : Channel) :
  StopProcessExecutor.channel spe = Some ch ->
  flag model "process" = EmptyString ->
  flag model "process-cmd" = EmptyString ->
  StopProcessExecutor.Exec spe host uid ctx model
  = ret (ReturnFail IllegalParameters "less process matcher").
Proof.
  intros H Hp Hc. unfold StopProcessExecutor.Exec. now rewrite H, Hp, Hc.
Qed.

Lemma stop_Exec_delegates (spe : StopProcessExecutor.t) (ch : Channel) :
  StopProcessExecutor.channel spe = Some ch ->
  ~ (flag model "process" = EmptyString
     /\ flag model "process-cmd" = EmptyString) ->
  StopProcessExecutor.Exec spe host uid ctx model
  = call_Run ch ctx (Join [GetScriptPath ch; StopProcessBin])
      (render (mode_flag ctx)
         (Assigned "debug" (fmt_t (Debug host))
          :: process_matcher model :: switch model "ignore-not-found")).
Proof.
  intros H Hm. unfold StopProcessExecutor.Exec. rewrite H.
  rewrite Sprintf_debug, Sprintf_process, Sprintf_process_cmd,
    Sprintf_ignore_not_found, stopProcess_calls, recoverProcess_calls.
  unfold process_matcher, switch, mode_flag.
  destruct (String.eqb_spec (flag model "process") EmptyString) as [Hp|Hp];
    destruct (String.eqb_spec (flag model "process-cmd") EmptyString)
      as [Hc|Hc];
    try (exfalso; apply Hm; split; assumption);
    cbn [andb negb];
    destruct (String.eqb (flag model "ignore-not-found") "true");
    destruct (snd (IsDestroy ctx));
    f_equal; same_text.
Qed.

End StopProcess.

Section FileAppend.

Variables (host : Host) (uid : string) (ctx : Context) (model : ExpModel).

Lemma append_Exec_no_command (f : FileAppendActionExecutor.t) (err : string) :
  checkAppendFileExpEnv host = Some err ->
  FileAppendActionExecutor.Exec f host uid ctx model
  = ret (ReturnFail CommandNotFound err).
Proof. intros H. unfold FileAppendActionExecutor.Exec. now rewrite H. Qed.

Lemma append_Exec_unbound (f : FileAppendActionExecutor.t) :
  checkAppendFileExpEnv host = None ->
  FileAppendActionExecutor.channel f = None ->
  FileAppendActionExecutor.Exec f host uid ctx model
  = ret (ReturnFail ServerError "channel is nil").
Proof.
  intros He H. unfold FileAppendActionExecutor.Exec. now rewrite He, H.
Qed.

Lemma append_Exec_destroy (f : FileAppendActionExecutor.t) (ch : Channel) :
  checkAppendFileExpEnv host = None ->
  FileAppendActionExecutor.channel f = Some ch ->
  snd (IsDestroy ctx) = true ->
  FileAppendActionExecutor.Exec f host uid ctx model
  = call_Run ch ctx (Join [GetScriptPath ch; AppendFileBin])
      (render "--stop"
         [Bare "filepath" (flag model "filepath");
          Assigned "debug" (fmt_t (Debug host))]).
Proof.
  intros He H Hd. unfold FileAppendActionExecutor.Exec.
  rewrite He, H, Hd. apply stop_calls.
Qed.

(** On the start path the checks run in this order: count, interval,
    existence of the file. *)
Lemma append_Exec_start (f : FileAppendActionExecutor.t) (ch : Channel) :
  checkAppendFileExpEnv host = None ->
  FileAppendActionExecutor.channel f = Some ch ->
  snd (IsDestroy ctx) = false ->
  FileAppendActionExecutor.Exec f host uid ctx model
  = match positive_or_default (flag model "count") with
    | None =>
        ret (ReturnFail IllegalParameters
               "--count value must be a positive integer")
    | Some count =>
        match positive_or_default (flag model "interval") with
        | None =>
            ret (ReturnFail IllegalParameters
                   "--interval value must be a positive integer")
        | Some interval =>
            if IsExist host (flag model "filepath") then
              call_Run ch ctx (Join [GetScriptPath ch; AppendFileBin])
                (render "--start"
                   ([Quoted "filepath" (flag model "filepath");
                     Quoted "content" (flag model "content");
                     Bare "count" (fmt_d count);
                     Bare "interval" (fmt_d interval);
                     Assigned "debug" (fmt_t (Debug host))]
                    ++ switch model "escape"
                    ++ switch model "enable-base64"))
            else
              ret (ReturnFail IllegalParameters
                     ("the " +:+ flag model "filepath"
                      +:+ " file does not exist"))
        end
    end.
Proof.
  intros He H Hd. unfold FileAppendActionExecutor.Exec.
  rewrite He, H, Hd. unfold positive_or_default, switch.
  rewrite Sprintf_not_exist.
  destruct (String.eqb (flag model "count") EmptyString); cbn [negb].
  - destruct (String.eqb (flag model "interval") EmptyString); cbn [negb].
    + destruct (IsExist host (flag model "filepath")); cbn [negb];
        [apply start_calls | reflexivity].
    + destruct (Atoi (flag model "interval")) as [interval|];
        [| reflexivity].
      destruct (interval <? 1); [reflexivity |].
      destruct (IsExist host (flag model "filepath")); cbn [negb];
        [apply start_calls | reflexivity].
  - destruct (Atoi (flag model "count")) as [count|]; [| reflexivity].
    destruct (count <? 1); [reflexivity |].
    destruct (String.eqb (flag model "interval") EmptyString); cbn [negb].
    + destruct (IsExist host (flag model "filepath")); cbn [negb];
        [apply start_calls | reflexivity].
    + destruct (Atoi (flag model "interval")) as [interval|];
        [| reflexivity].
      destruct (interval <? 1); [reflexivity |].
      destruct (IsExist host (flag model "filepath")); cbn [negb];
        [apply start_calls | reflexivity].
Qed.

End FileAppend.

(** ** Facts about the vocabulary *)

Lemma fails_with_ret (code : CodeType) (err : string) :
  fails_with code (ret (ReturnFail code err)).
Proof. split; reflexivity. Qed.

Lemma not_positive_rejected (s : string) :
  not_positive s -> positive_or_default s = None.
Proof.
  intros [Hne H]. unfold positive_or_default.
  destruct (String.eqb_spec s EmptyString) as [->|_]; [congruence |].
  destruct (Atoi s) as [n|]; [| reflexivity].
  destruct (Z.ltb_spec n 1); [reflexivity | lia].
Qed.

Lemma positive_accepted (s : string) :
  ~ not_positive s -> exists n, positive_or_default s = Some n /\ 1 <= n.
Proof.
  intros H. unfold positive_or_default, not_positive in *.
  destruct (String.eqb_spec s EmptyString) as [->|Hne].
  - exists 1. split; [reflexivity | lia].
  - destruct (Atoi s) as [n|]; [| tauto].
    destruct (Z.ltb_spec n 1); [tauto |]. exists n. split; [reflexivity | lia].
Qed.

Lemma prefix_render (p mode : string) (fs : list Serialised) :
  String.prefix p mode = true -> String.prefix p (render mode fs) = true.
Proof.
  revert mode; induction fs as [|f fs IH]; intros mode H; [exact H |].
  apply IH. now apply prefix_append_trans.
Qed.

Lemma contains_render_mode (needle mode : string) (fs : list Serialised) :
  contains needle mode = true -> contains needle (render mode fs) = true.
Proof.
  revert mode; induction fs as [|f fs IH]; intros mode H; [exact H |].
  apply IH. now apply contains_append_r.
Qed.

Lemma contains_render (f : Serialised) (fs : list Serialised) (mode : string) :
  In f fs -> contains (render_flag f) (render mode fs) = true.
Proof.
  revert mode; induction fs as [|g fs IH]; intros mode; [intros [] |].
  cbn [render]. intros [->|H].
  - apply contains_render_mode.
    apply contains_append_l, contains_append_l, contains_prefix.
    rewrite <- (append_nil_r (render_flag f)) at 2. apply prefix_append.
  - now apply IH.
Qed.

(** ** The claims about the nil channel and the missing matcher *)

(** C1, as the code has it.  With no channel bound, process stop always
    answers with a ServerError failure and runs nothing.  File append
    does so whenever the host has both [echo] and [kill]; it tests the host
    before the channel, so on a host that lacks one of them the answer is the
    CommandNotFound failure that names the command. *)
Theorem unbound_channel_is_server_error
  (spe : StopProcessExecutor.t) (f : FileAppendActionExecutor.t)
  (host : Host) (uid : string) (ctx : Context) (model : ExpModel)
  (Hspe : StopProcessExecutor.channel spe = None)
  (Hf : FileAppendActionExecutor.channel f = None) :
  (fails_with ServerError (StopProcessExecutor.Exec spe host uid ctx model)
   /\ runs (StopProcessExecutor.Exec spe host uid ctx model) = [])
  /\ (checkAppendFileExpEnv host = None ->
      fails_with ServerError
        (FileAppendActionExecutor.Exec f host uid ctx model)
      /\ runs (FileAppendActionExecutor.Exec f host uid ctx model) = [])
  /\ (forall err, checkAppendFileExpEnv host = Some err ->
      fails_with CommandNotFound
        (FileAppendActionExecutor.Exec f host uid ctx model)
      /\ Err (response (FileAppendActionExecutor.Exec f host uid ctx model))
         = err).
Proof.
  split; [| split].
  - rewrite stop_Exec_unbound by assumption.
    split; [apply fails_with_ret | reflexivity].
  - intros He. rewrite append_Exec_unbound by assumption.
    split; [apply fails_with_ret | reflexivity].
  - intros err He. rewrite (append_Exec_no_command _ _ _ _ _ err He).
    split; [apply fails_with_ret | reflexivity].
Qed.

Lemma unbound_channel_is_server_error_holds :
  fails_with ServerError
    (StopProcessExecutor.Exec unbound_stop full_host "uid" create_ctx
       (model_of [("process", "nginx")]))
  /\ fails_with ServerError
       (FileAppendActionExecutor.Exec unbound_append full_host "uid"
          create_ctx (model_of [("filepath", "/tmp/a.log")])).
Proof.
  destruct (unbound_channel_is_server_error unbound_stop unbound_append
              full_host "uid" create_ctx (model_of [("process", "nginx")])
              eq_refl eq_refl) as [[Hstop _] _].
  destruct (unbound_channel_is_server_error unbound_stop unbound_append
              full_host "uid" create_ctx
              (model_of [("filepath", "/tmp/a.log")])
              eq_refl eq_refl) as [_ [Happend _]].
  split; [exact Hstop | exact (proj1 (Happend eq_refl))].
Defined.

(** C1 as stated fails for file append: on a host without [kill] an
    executor with no channel answers CommandNotFound, not ServerError. *)
Lemma unbound_channel_without_kill :
  FileAppendActionExecutor.channel unbound_append = None
  /\ FileAppendActionExecutor.Exec unbound_append bare_host "uid" create_ctx
       (model_of [("filepath", "/tmp/a.log"); ("content", "hi")])
     = ret (ReturnFail CommandNotFound "kill command not found")
  /\ ~ fails_with ServerError
         (FileAppendActionExecutor.Exec unbound_append bare_host "uid"
            create_ctx
            (model_of [("filepath", "/tmp/a.log"); ("content", "hi")])).
Proof.
  split; [reflexivity |]. split; [reflexivity |].
  intros [H _]. vm_compute in H. discriminate.
Qed.

(** C2.  Process stop with a channel bound and neither [process] nor
    [process-cmd] given answers with an IllegalParameters failure and never
    calls [Run]. *)
Theorem no_matcher_is_illegal_parameters
  (spe : StopProcessExecutor.t) (ch : Channel) (host : Host) (uid : string)
  (ctx : Context) (model : ExpModel)
  (Hch : StopProcessExecutor.channel spe = Some ch)
  (Hprocess : flag model "process" = EmptyString)
  (Hcmd : flag model "process-cmd" = EmptyString) :
  fails_with IllegalParameters
    (StopProcessExecutor.Exec spe host uid ctx model)
  /\ runs (StopProcessExecutor.Exec spe host uid ctx model) = [].
Proof.
  rewrite (stop_Exec_no_matcher host uid ctx model spe ch Hch Hprocess Hcmd).
  split; [apply fails_with_ret | reflexivity].
Qed.

Lemma no_matcher_is_illegal_parameters_holds :
  fails_with IllegalParameters
    (StopProcessExecutor.Exec bound_stop full_host "uid" create_ctx
       (model_of [("ignore-not-found", "true")]))
  /\ runs (StopProcessExecutor.Exec bound_stop full_host "uid" create_ctx
             (model_of [("ignore-not-found", "true")])) = [].
Proof.
  apply (no_matcher_is_illegal_parameters bound_stop echo_channel full_host
           "uid" create_ctx (model_of [("ignore-not-found", "true")]));
    reflexivity.
Defined.

(** ** The checks of file append on the start path *)

(** C3, as the code has it.  A start request whose [count] or [interval]
    is supplied and is not a positive integer never reaches [Run]; once the
    host check has passed and a channel is bound, the answer is an
    IllegalParameters failure. *)
Theorem bad_count_or_interval_is_illegal_parameters
  (f : FileAppendActionExecutor.t) (host : Host) (uid : string)
  (ctx : Context) (model : ExpModel)
  (Hstart : snd (IsDestroy ctx) = false)
  (Hbad : not_positive (flag model "count")
          \/ not_positive (flag model "interval")) :
  runs (FileAppendActionExecutor.Exec f host uid ctx model) = []
  /\ (checkAppendFileExpEnv host = None ->
      FileAppendActionExecutor.channel f <> None ->
      fails_with IllegalParameters
        (FileAppendActionExecutor.Exec f host uid ctx model)).
Proof.
  assert (Hstartpath : forall ch,
    checkAppendFileExpEnv host = None ->
    FileAppendActionExecutor.channel f = Some ch ->
    exists err, FileAppendActionExecutor.Exec f host uid ctx model
                = ret (ReturnFail IllegalParameters err)).
  { intros ch He Hch.
    rewrite (append_Exec_start host uid ctx model f ch He Hch Hstart).
    destruct (positive_or_default (flag model "count")) as [count|] eqn:Ec;
      [| eexists; reflexivity].
    destruct Hbad as [Hc|Hi].
    - apply not_positive_rejected in Hc. congruence.
    - apply not_positive_rejected in Hi. rewrite Hi. eexists; reflexivity. }
  split.
  - destruct (checkAppendFileExpEnv host) as [err|] eqn:He.
    + now rewrite (append_Exec_no_command host uid ctx model f err He).
    + destruct (FileAppendActionExecutor.channel f) as [ch|] eqn:Hch.
      * destruct (Hstartpath ch eq_refl eq_refl) as [err ->]. reflexivity.
      * now rewrite (append_Exec_unbound host uid ctx model f He Hch).
  - intros He Hch.
    destruct (FileAppendActionExecutor.channel f) as [ch|] eqn:Hch';
      [| congruence].
    destruct (Hstartpath ch He eq_refl) as [err ->]. apply fails_with_ret.
Qed.

Lemma bad_count_or_interval_is_illegal_parameters_holds :
  runs (FileAppendActionExecutor.Exec bound_append full_host "uid" create_ctx
          (model_of [("filepath", "/tmp/a.log"); ("content", "hi");
                     ("count", "0")])) = []
  /\ fails_with IllegalParameters
       (FileAppendActionExecutor.Exec bound_append full_host "uid" create_ctx
          (model_of [("filepath", "/tmp/a.log"); ("content", "hi");
                     ("count", "0")])).
Proof.
  assert (Hbad : not_positive
                   (flag (model_of [("filepath", "/tmp/a.log");
                                    ("content", "hi"); ("count", "0")])
                      "count")).
  { split; [discriminate | vm_compute; reflexivity]. }
  destruct (bad_count_or_interval_is_illegal_parameters bound_append
              full_host "uid" create_ctx
              (model_of [("filepath", "/tmp/a.log"); ("content", "hi");
                         ("count", "0")])
              eq_refl (or_introl Hbad)) as [Hruns Hfail].
  split; [exact Hruns | apply Hfail; [reflexivity | discriminate]].
Defined.

(** C3 as stated fails: with a count that is no number, an executor with
    no channel answers ServerError, and one on a host without [kill] answers
    CommandNotFound. *)
Lemma bad_count_before_the_count_check :
  (snd (IsDestroy create_ctx) = false
   /\ not_positive (flag (model_of [("filepath", "/tmp/a.log");
                                    ("count", "abc")]) "count")
   /\ FileAppendActionExecutor.Exec unbound_append full_host "uid" create_ctx
        (model_of [("filepath", "/tmp/a.log"); ("count", "abc")])
      = ret (ReturnFail ServerError "channel is nil")
   /\ ~ fails_with IllegalParameters
          (FileAppendActionExecutor.Exec unbound_append full_host "uid"
             create_ctx
             (model_of [("filepath", "/tmp/a.log"); ("count", "abc")])))
  /\ (FileAppendActionExecutor.Exec bound_append bare_host "uid" create_ctx
        (model_of [("filepath", "/tmp/a.log"); ("count", "abc")])
      = ret (ReturnFail CommandNotFound "kill command not found")
      /\ ~ fails_with IllegalParameters
             (FileAppendActionExecutor.Exec bound_append bare_host "uid"
                create_ctx
                (model_of [("filepath", "/tmp/a.log"); ("count", "abc")]))).
Proof.
  repeat split; try discriminate.
  - intros [H _]. vm_compute in H. discriminate.
  - intros [H _]. vm_compute in H. discriminate.
Qed.

(** C9, as the code has it.  A start request with valid [count] and
    [interval] whose file does not exist never reaches [Run]; once the host
    check has passed and a channel is bound, the answer is the
    IllegalParameters failure whose message names the path.  A destroy
    request never consults the file test: hosts that differ only in which
    files exist give the same outcome. *)
Theorem missing_file_is_illegal_parameters
  (f : FileAppendActionExecutor.t) (host : Host) (uid : string)
  (ctx : Context) (model : ExpModel)
  (Hstart : snd (IsDestroy ctx) = false)
  (Hcount : ~ not_positive (flag model "count"))
  (Hinterval : ~ not_positive (flag model "interval"))
  (Hmissing : IsExist host (flag model "filepath") = false) :
  runs (FileAppendActionExecutor.Exec f host uid ctx model) = []
  /\ (checkAppendFileExpEnv host = None ->
      FileAppendActionExecutor.channel f <> None ->
      fails_with IllegalParameters
        (FileAppendActionExecutor.Exec f host uid ctx model)
      /\ Err (response (FileAppendActionExecutor.Exec f host uid ctx model))
         = "the " +:+ flag model "filepath" +:+ " file does not exist"
      /\ contains (flag model "filepath")
           (Err (response
                   (FileAppendActionExecutor.Exec f host uid ctx model)))
         = true)
  /\ (forall (ctx' : Context) (exist' : string -> bool),
      snd (IsDestroy ctx') = true ->
      FileAppendActionExecutor.Exec f
        {| Debug := Debug host; IsExist := exist';
           IsCommandAvailable := IsCommandAvailable host |} uid ctx' model
      = FileAppendActionExecutor.Exec f host uid ctx' model).
Proof.
  assert (Hstartpath : forall ch,
    checkAppendFileExpEnv host = None ->
    FileAppendActionExecutor.channel f = Some ch ->
    FileAppendActionExecutor.Exec f host uid ctx model
    = ret (ReturnFail IllegalParameters
             ("the " +:+ flag model "filepath" +:+ " file does not exist"))).
  { intros ch He Hch.
    rewrite (append_Exec_start host uid ctx model f ch He Hch Hstart).
    destruct (positive_accepted _ Hcount) as [count [-> _]].
    destruct (positive_accepted _ Hinterval) as [interval [-> _]].
    now rewrite Hmissing. }
  split; [| split].
  - destruct (checkAppendFileExpEnv host) as [err|] eqn:He.
    + now rewrite (append_Exec_no_command host uid ctx model f err He).
    + destruct (FileAppendActionExecutor.channel f) as [ch|] eqn:Hch.
      * now rewrite (Hstartpath ch eq_refl eq_refl).
      * now rewrite (append_Exec_unbound host uid ctx model f He Hch).
  - intros He Hch.
    destruct (FileAppendActionExecutor.channel f) as [ch|] eqn:Hch';
      [| congruence].
    rewrite (Hstartpath ch He eq_refl).
    split; [apply fails_with_ret |]. split; [reflexivity |].
    apply contains_middle.
  - intros ctx' exist' Hd. unfold FileAppendActionExecutor.Exec.
    change (checkAppendFileExpEnv
              {| Debug := Debug host; IsExist := exist';
                 IsCommandAvailable := IsCommandAvailable host |})
      with (checkAppendFileExpEnv host).
    destruct (checkAppendFileExpEnv host); [reflexivity |].
    destruct (FileAppendActionExecutor.channel f); [| reflexivity].
    now rewrite Hd.
Qed.

Lemma missing_file_is_illegal_parameters_holds :
  runs (FileAppendActionExecutor.Exec bound_append full_host "uid" create_ctx
          (model_of [("filepath", "/tmp/none.log"); ("content", "hi");
                     ("count", "2")])) = []
  /\ Err (response
            (FileAppendActionExecutor.Exec bound_append full_host "uid"
               create_ctx
               (model_of [("filepath", "/tmp/none.log"); ("content", "hi");
                          ("count", "2")])))
     = "the /tmp/none.log file does not exist".
Proof.
  assert (Hcount : ~ not_positive
                       (flag (model_of [("filepath", "/tmp/none.log");
                                        ("content", "hi"); ("count", "2")])
                          "count")).
  { intros Hbad. apply not_positive_rejected in Hbad.
    vm_compute in Hbad. discriminate. }
  assert (Hinterval : ~ not_positive
                          (flag (model_of [("filepath", "/tmp/none.log");
                                           ("content", "hi"); ("count", "2")])
                             "interval")).
  { intros [Hbad _]. apply Hbad. reflexivity. }
  destruct (missing_file_is_illegal_parameters bound_append full_host "uid"
              create_ctx
              (model_of [("filepath", "/tmp/none.log"); ("content", "hi");
                         ("count", "2")])
              eq_refl Hcount Hinterval eq_refl) as [Hruns [Hfail _]].
  split; [exact Hruns |].
  apply Hfail; [reflexivity | discriminate].
Defined.

(** C9 as stated fails: with valid numbers and a file that does not
    exist, an executor with no channel answers ServerError, and one on a host
    without [kill] answers CommandNotFound. *)
Lemma missing_file_before_the_file_check :
  (snd (IsDestroy create_ctx) = false
   /\ IsExist full_host
        (flag (model_of [("filepath", "/tmp/none.log")]) "filepath") = false
   /\ FileAppendActionExecutor.Exec unbound_append full_host "uid" create_ctx
        (model_of [("filepath", "/tmp/none.log")])
      = ret (ReturnFail ServerError "channel is nil")
   /\ ~ fails_with IllegalParameters
          (FileAppendActionExecutor.Exec unbound_append full_host "uid"
             create_ctx (model_of [("filepath", "/tmp/none.log")])))
  /\ (FileAppendActionExecutor.Exec bound_append bare_host "uid" create_ctx
        (model_of [("filepath", "/tmp/none.log")])
      = ret (ReturnFail CommandNotFound "kill command not found")
      /\ ~ fails_with IllegalParameters
             (FileAppendActionExecutor.Exec bound_append bare_host "uid"
                create_ctx (model_of [("filepath", "/tmp/none.log")]))).
Proof.
  repeat split.
  - intros [H _]. vm_compute in H. discriminate.
  - intros [H _]. vm_compute in H. discriminate.
Qed.

(** ** The destroy path of file append *)

(** C10, as the code has it.  Once the host check has passed and a
    channel is bound, a destroy request goes to [Run] exactly once and the
    answer is [Run]'s: no flag is validated.  Neither the other flags nor
    the file test are consulted, so the outcome is the same for any model
    with the same [filepath] and any host that differs only in which files
    exist. *)
Theorem destroy_skips_validation
  (f : FileAppendActionExecutor.t) (ch : Channel) (host : Host)
  (uid : string) (ctx : Context) (model : ExpModel)
  (Henv : checkAppendFileExpEnv host = None)
  (Hch : FileAppendActionExecutor.channel f = Some ch)
  (Hdestroy : snd (IsDestroy ctx) = true) :
  response (FileAppendActionExecutor.Exec f host uid ctx model)
  = Run ch ctx (Join [GetScriptPath ch; AppendFileBin])
      ("--stop --filepath " +:+ flag model "filepath" +:+ " --debug="
       +:+ fmt_t (Debug host))
  /\ runs (FileAppendActionExecutor.Exec f host uid ctx model)
     = [ {| run_ctx := ctx;
            run_script := Join [GetScriptPath ch; AppendFileBin];
            run_args := "--stop --filepath " +:+ flag model "filepath"
                        +:+ " --debug=" +:+ fmt_t (Debug host) |} ]
  /\ (forall (model' : ExpModel) (exist' : string -> bool),
      flag model' "filepath" = flag model "filepath" ->
      FileAppendActionExecutor.Exec f
        {| Debug := Debug host; IsExist := exist';
           IsCommandAvailable := IsCommandAvailable host |} uid ctx model'
      = FileAppendActionExecutor.Exec f host uid ctx model).
Proof.
  rewrite (append_Exec_destroy host uid ctx model f ch Henv Hch Hdestroy).
  split; [| split].
  - unfold call_Run, response; cbn [fst]. f_equal; same_text.
  - unfold call_Run, runs; cbn [snd]. do 2 f_equal; same_text.
  - intros model' exist' Hfp.
    rewrite (append_Exec_destroy
               {| Debug := Debug host; IsExist := exist';
                  IsCommandAvailable := IsCommandAvailable host |}
               uid ctx model' f ch Henv Hch Hdestroy).
    cbn [Debug]. now rewrite Hfp.
Qed.

Lemma destroy_skips_validation_holds :
  runs (FileAppendActionExecutor.Exec bound_append full_host "uid" destroy_ctx
          (model_of [("content", "hi"); ("count", "abc")]))
  = [ {| run_ctx := destroy_ctx;
         run_script := "/opt/chaosblade/bin/chaos_appendfile";
         run_args := "--stop --filepath  --debug=false" |} ].
Proof.
  exact (proj1 (proj2 (destroy_skips_validation bound_append echo_channel
                         full_host "uid" destroy_ctx
                         (model_of [("content", "hi"); ("count", "abc")])
                         eq_refl eq_refl eq_refl))).
Defined.

(** C10 as stated fails: a destroy request on a host without [kill] is
    answered CommandNotFound, and one to an executor with no channel is
    answered ServerError; neither reaches [Run]. *)
Lemma destroy_stopped_before_the_channel :
  (snd (IsDestroy destroy_ctx) = true
   /\ FileAppendActionExecutor.Exec bound_append bare_host "uid" destroy_ctx
        (model_of [("filepath", "/tmp/a.log")])
      = ret (ReturnFail CommandNotFound "kill command not found")
   /\ runs (FileAppendActionExecutor.Exec bound_append bare_host "uid"
              destroy_ctx (model_of [("filepath", "/tmp/a.log")])) = [])
  /\ (FileAppendActionExecutor.Exec unbound_append full_host "uid" destroy_ctx
        (model_of [("filepath", "/tmp/a.log")])
      = ret (ReturnFail ServerError "channel is nil")
      /\ runs (FileAppendActionExecutor.Exec unbound_append full_host "uid"
                 destroy_ctx (model_of [("filepath", "/tmp/a.log")])) = []).
Proof. repeat split. Qed.

(** C5.  A destroy request to file append, with the host check passed and
    a channel bound, hands [Run] the text [--stop --filepath <filepath>
    --debug=<debug>]: it begins with [--stop], carries the filepath flag,
    and the flags [content], [count] and [interval] have no part in it, so
    any model with the same [filepath] gives the same call. *)
Theorem destroy_args_are_stop_and_filepath
  (f : FileAppendActionExecutor.t) (ch : Channel) (host : Host)
  (uid : string) (ctx : Context) (model : ExpModel)
  (Henv : checkAppendFileExpEnv host = None)
  (Hch : FileAppendActionExecutor.channel f = Some ch)
  (Hdestroy : snd (IsDestroy ctx) = true) :
  exists args : string,
    runs (FileAppendActionExecutor.Exec f host uid ctx model)
    = [ {| run_ctx := ctx;
           run_script := Join [GetScriptPath ch; AppendFileBin];
           run_args := args |} ]
    /\ String.prefix "--stop" args = true
    /\ contains ("--filepath " +:+ flag model "filepath") args = true
    /\ args = render "--stop" [Bare "filepath" (flag model "filepath");
                               Assigned "debug" (fmt_t (Debug host))]
    /\ (forall content count interval : string,
        runs (FileAppendActionExecutor.Exec f host uid ctx
                {| ActionFlags :=
                     <["content" := content]>
                       (<["count" := count]>
                          (<["interval" := interval]> (ActionFlags model)))
                |})
        = runs (FileAppendActionExecutor.Exec f host uid ctx model)).
Proof.
  rewrite (append_Exec_destroy host uid ctx model f ch Henv Hch Hdestroy).
  eexists. split; [reflexivity |]. split; [| split; [| split]].
  - reflexivity.
  - apply (contains_render (Bare "filepath" (flag model "filepath"))).
    left; reflexivity.
  - reflexivity.
  - intros content count interval.
    rewrite (append_Exec_destroy host uid ctx _ f ch Henv Hch Hdestroy).
    unfold flag; cbn [ActionFlags].
    now rewrite !lookup_insert_ne by discriminate.
Qed.

Lemma destroy_args_are_stop_and_filepath_holds :
  exists args : string,
    runs (FileAppendActionExecutor.Exec bound_append full_host "uid"
            destroy_ctx
            (model_of [("filepath", "/tmp/a.log"); ("content", "hi")]))
    = [ {| run_ctx := destroy_ctx;
           run_script := "/opt/chaosblade/bin/chaos_appendfile";
           run_args := args |} ]
    /\ args = "--stop --filepath /tmp/a.log --debug=false".
Proof.
  destruct (destroy_args_are_stop_and_filepath bound_append echo_channel
              full_host "uid" destroy_ctx
              (model_of [("filepath", "/tmp/a.log"); ("content", "hi")])
              eq_refl eq_refl eq_refl) as [args [Hruns [_ [_ [Hargs _]]]]].
  exists args. split; [exact Hruns | exact Hargs].
Defined.

(** ** Delegation *)

(** C6.  Process stop with a channel bound, [process] set to
    [SimpleHTTPServer], no [process-cmd], no [ignore-not-found], no destroy
    marker and the debug flag off calls [Run] with the script path joined
    with [chaos_stopprocess] and the arguments
    [--start --debug=false --process "SimpleHTTPServer"]. *)
Theorem simple_http_server_example
  (spe : StopProcessExecutor.t) (ch : Channel) (host : Host) (uid : string)
  (ctx : Context) (model : ExpModel)
  (Hch : StopProcessExecutor.channel spe = Some ch)
  (Hprocess : ActionFlags model !! "process" = Some "SimpleHTTPServer")
  (Hcmd : ActionFlags model !! "process-cmd" = None)
  (Hignore : ActionFlags model !! "ignore-not-found" = None)
  (Hstart : destroy_marker ctx = None)
  (Hdebug : Debug host = false) :
  runs (StopProcessExecutor.Exec spe host uid ctx model)
  = [ {| run_ctx := ctx;
         run_script := Join [GetScriptPath ch; "chaos_stopprocess"];
         run_args := "--start --debug=false --process " +:+ dq
                     +:+ "SimpleHTTPServer" +:+ dq |} ]
  /\ response (StopProcessExecutor.Exec spe host uid ctx model)
     = Run ch ctx (Join [GetScriptPath ch; "chaos_stopprocess"])
         ("--start --debug=false --process " +:+ dq +:+ "SimpleHTTPServer"
          +:+ dq).
Proof.
  rewrite (stop_Exec_delegates host uid ctx model spe ch Hch).
  - unfold process_matcher, switch, mode_flag, IsDestroy, flag.
    rewrite Hprocess, Hignore, Hstart, Hdebug. split; reflexivity.
  - unfold flag. rewrite Hprocess. intros [H _]. discriminate.
Qed.

Lemma simple_http_server_example_holds :
  runs (StopProcessExecutor.Exec bound_stop full_host "uid" create_ctx
          (model_of [("process", "SimpleHTTPServer")]))
  = [ {| run_ctx := create_ctx;
         run_script := "/opt/chaosblade/bin/chaos_stopprocess";
         run_args := "--start --debug=false --process " +:+ dq
                     +:+ "SimpleHTTPServer" +:+ dq |} ].
Proof.
  exact (proj1 (simple_http_server_example bound_stop echo_channel full_host
                  "uid" create_ctx
                  (model_of [("process", "SimpleHTTPServer")])
                  eq_refl eq_refl eq_refl eq_refl eq_refl eq_refl)).
Defined.

(** C7.  When every local check passes, either executor calls [Run]
    exactly once, on the bound channel and with the caller's context, and
    returns the response of that call as it is. *)
Theorem delegated_response_is_verbatim
  (spe : StopProcessExecutor.t) (f : FileAppendActionExecutor.t)
  (host : Host) (uid : string) (ctx : Context) (model : ExpModel) :
  (stop_request_valid spe model ->
   exists (ch : Channel) (script args : string),
     StopProcessExecutor.channel spe = Some ch
     /\ runs (StopProcessExecutor.Exec spe host uid ctx model)
        = [ {| run_ctx := ctx; run_script := script; run_args := args |} ]
     /\ response (StopProcessExecutor.Exec spe host uid ctx model)
        = Run ch ctx script args)
  /\ (append_request_valid f host ctx model ->
      exists (ch : Channel) (script args : string),
        FileAppendActionExecutor.channel f = Some ch
        /\ runs (FileAppendActionExecutor.Exec f host uid ctx model)
           = [ {| run_ctx := ctx; run_script := script; run_args := args |} ]
        /\ response (FileAppendActionExecutor.Exec f host uid ctx model)
           = Run ch ctx script args).
Proof.
  split.
  - intros [Hch Hm].
    destruct (StopProcessExecutor.channel spe) as [ch|] eqn:E;
      [| congruence].
    rewrite (stop_Exec_delegates host uid ctx model spe ch E Hm).
    exists ch. do 2 eexists. repeat split.
  - intros [He [Hch Hv]].
    destruct (FileAppendActionExecutor.channel f) as [ch|] eqn:E;
      [| congruence].
    exists ch.
    destruct (snd (IsDestroy ctx)) eqn:Hd.
    + rewrite (append_Exec_destroy host uid ctx model f ch He E Hd).
      do 2 eexists. repeat split.
    + destruct (Hv eq_refl) as [Hc [Hi Hx]].
      rewrite (append_Exec_start host uid ctx model f ch He E Hd).
      destruct (positive_accepted _ Hc) as [count [-> _]].
      destruct (positive_accepted _ Hi) as [interval [-> _]].
      rewrite Hx. do 2 eexists. repeat split.
Qed.

Lemma delegated_response_is_verbatim_holds :
  exists (ch : Channel) (script args : string),
    FileAppendActionExecutor.channel bound_append = Some ch
    /\ runs (FileAppendActionExecutor.Exec bound_append full_host "uid"
               create_ctx
               (model_of [("filepath", "/tmp/a.log"); ("content", "hi");
                          ("interval", "10")]))
       = [ {| run_ctx := create_ctx; run_script := script;
              run_args := args |} ]
    /\ response (FileAppendActionExecutor.Exec bound_append full_host "uid"
                   create_ctx
                   (model_of [("filepath", "/tmp/a.log"); ("content", "hi");
                              ("interval", "10")]))
       = Run ch create_ctx script args.
Proof.
  apply (delegated_response_is_verbatim bound_stop bound_append full_host
           "uid" create_ctx
           (model_of [("filepath", "/tmp/a.log"); ("content", "hi");
                      ("interval", "10")])).
  split; [reflexivity |]. split; [discriminate |]. intros _.
  split; [| split; [| reflexivity]].
  - intros [Hbad _]. apply Hbad. reflexivity.
  - intros Hbad. apply not_positive_rejected in Hbad.
    vm_compute in Hbad. discriminate.
Defined.

(** ** The argument string of a start request *)

Lemma process_matcher_name (model : ExpModel) :
  flag_name (process_matcher model) = "process"
  \/ flag_name (process_matcher model) = "process-cmd".
Proof.
  unfold process_matcher.
  destruct (String.eqb (flag model "process") EmptyString); auto.
Qed.

Lemma switch_names (model : ExpModel) (name : string) :
  map flag_name (switch model name) = []
  \/ map flag_name (switch model name) = [name].
Proof.
  unfold switch. destruct (String.eqb (flag model name) "true"); auto.
Qed.

Lemma stop_flag_names_NoDup (debug : string) (model : ExpModel) :
  NoDup (map flag_name
           (Assigned "debug" debug :: process_matcher model
            :: switch model "ignore-not-found")).
Proof.
  cbn [map flag_name].
  destruct (process_matcher_name model) as [-> | ->];
    destruct (switch_names model "ignore-not-found") as [-> | ->];
    apply (bool_decide_unpack _); vm_compute; exact I.
Qed.

Lemma append_flag_names_NoDup (filepath content count interval debug : string)
  (model : ExpModel) :
  NoDup (map flag_name
           ([Quoted "filepath" filepath; Quoted "content" content;
             Bare "count" count; Bare "interval" interval;
             Assigned "debug" debug]
            ++ switch model "escape" ++ switch model "enable-base64")).
Proof.
  rewrite !map_app. cbn [map flag_name].
  destruct (switch_names model "escape") as [-> | ->];
    destruct (switch_names model "enable-base64") as [-> | ->];
    apply (bool_decide_unpack _); vm_compute; exact I.
Qed.


(** ** Counting a flag in the argument string *)

#[local] Arguments String.append : simpl nomatch.

Lemma occurrences_miss (needle : string) (c : ascii) (rest : string) :
  String.prefix needle (String c rest) = false ->
  occurrences needle (String c rest) = occurrences needle rest.
Proof. intros H. now rewrite occurrences_cons, H. Qed.

Lemma occurrences_hit (needle : string) (c : ascii) (rest : string) :
  String.prefix needle (String c rest) = true ->
  occurrences needle (String c rest) = S (occurrences needle rest).
Proof. intros H. now rewrite occurrences_cons, H. Qed.

Lemma prefix_app_same (v a b : string) :
  String.prefix (v +:+ a) (v +:+ b) = String.prefix a b.
Proof.
  induction v as [|c v IH]; [reflexivity |].
  now rewrite !append_cons, prefix_cons.
Qed.

Lemma dash_free_tail (c : ascii) (v : string) :
  dash_free (String c v) = true -> dash_free v = true.
Proof.
  unfold dash_free, contains. rewrite occurrences_cons.
  rewrite !negb_true_iff, !Nat.ltb_ge. lia.
Qed.

Lemma prefix_nil (s : string) : String.prefix EmptyString s = true.
Proof. now destruct s. Qed.

Lemma prefix_cons_true (a b : ascii) (s t : string) :
  String.prefix (String a s) (String b t) = true ->
  a = b /\ String.prefix s t = true.
Proof.
  cbn [String.prefix]. destruct (ascii_dec a b); [auto | discriminate].
Qed.

Lemma dash_free_head (v : string) :
  dash_free (String "-" (String "-" v)) = false.
Proof.
  unfold dash_free, contains. rewrite occurrences_cons.
  rewrite !prefix_cons, prefix_nil.
  rewrite negb_false_iff, Nat.ltb_lt. lia.
Qed.

(** A needle that starts with two dashes finds nothing inside a value that
    has no two dashes in a row, nor across its end when the text that
    follows starts with something else than a dash. *)
Lemma occurrences_skip (needle v tail : string) :
  String.prefix "--" needle = true ->
  dash_free v = true ->
  String.prefix "-" tail = false ->
  occurrences needle (v +:+ tail) = occurrences needle tail.
Proof.
  intros Hn Hv Ht. induction v as [|c v IH]; [reflexivity |].
  rewrite append_cons, occurrences_miss;
    [apply IH; eapply dash_free_tail, Hv |].
  destruct needle as [|a needle]; [discriminate |].
  apply prefix_cons_true in Hn as [<- Hn].
  destruct needle as [|b needle]; [discriminate |].
  apply prefix_cons_true in Hn as [<- _].
  destruct (String.prefix (String "-" (String "-" needle))
              (String c (v +:+ tail))) eqn:E; [| reflexivity].
  exfalso. apply prefix_cons_true in E as [<- E].
  destruct v as [|d v].
  - change (EmptyString +:+ tail) with tail in E.
    destruct tail as [|t tail]; [discriminate |].
    apply prefix_cons_true in E as [<- _].
    now rewrite prefix_cons, prefix_nil in Ht.
  - rewrite append_cons in E. apply prefix_cons_true in E as [<- _].
    now rewrite dash_free_head in Hv.
Qed.

Lemma digits_no_dash (s : string) (acc n : Z) :
  digits s acc = Some n -> occurrences "-" s = 0%nat.
Proof.
  revert acc; induction s as [|c s IH]; intros acc H; [reflexivity |].
  cbn [digits] in H. destruct (digit c) as [d|] eqn:Ed; [| discriminate].
  rewrite occurrences_cons, (IH _ H).
  destruct (String.prefix "-" (String c s)) eqn:E; [| reflexivity].
  apply prefix_cons_true in E as [<- _]. discriminate.
Qed.

Lemma no_dash_dash_free (s : string) :
  occurrences "-" s = 0%nat -> dash_free s = true.
Proof.
  unfold dash_free, contains. rewrite negb_true_iff, Nat.ltb_ge.
  induction s as [|c s IH]; [intros _; cbn; lia |].
  rewrite !occurrences_cons.
  destruct (String.prefix "-" (String c s)) eqn:E; [lia |].
  destruct (String.prefix "--" (String c s)) eqn:E2.
  - apply prefix_cons_true in E2 as [<- _].
    now rewrite prefix_cons, prefix_nil in E.
  - intros H. specialize (IH H). lia.
Qed.

Lemma digit_pretty_N_char (d : N) :
  (d < 10)%N -> digit (pretty_N_char d) = Some (Z.of_N d).
Proof.
  intros H.
  assert (d = 0 \/ d = 1 \/ d = 2 \/ d = 3 \/ d = 4 \/ d = 5 \/ d = 6
          \/ d = 7 \/ d = 8 \/ d = 9)%N as Hd by lia.
  repeat destruct Hd as [-> | Hd]; try subst d; reflexivity.
Qed.

(** Reading the digits of [x] in front of [s] continues with [s] and the
    accumulator shifted by the number of digits. *)
Lemma digits_pretty_N_go (x : N) :
  exists k : Z, 0 <= k /\
    forall (s : string) (acc : Z),
      digits (pretty_N_go x s) acc = digits s (acc * 10 ^ k + Z.of_N x).
Proof.
  induction (N.lt_wf_0 x) as [x _ IH].
  destruct (N.eq_dec x 0%N) as [-> | Hx].
  - exists 0. split; [lia |]. intros s acc. rewrite pretty_N_go_0.
    f_equal. lia.
  - destruct (IH (x `div` 10)%N) as [k [Hk Hgo]].
    { apply N.div_lt; lia. }
    exists (k + 1). split; [lia |]. intros s acc.
    rewrite pretty_N_go_step by lia. rewrite Hgo.
    cbn [digits]. rewrite digit_pretty_N_char by (apply N.mod_lt; lia).
    f_equal. rewrite Z.pow_add_r by lia.
    rewrite (N.div_mod x 10) at 3 by lia.
    rewrite N2Z.inj_add, N2Z.inj_mul. change (Z.of_N 10) with 10. lia.
Qed.

Lemma digits_pretty_positive (p : positive) :
  digits (pretty (N.pos p)) 0 = Some (Z.pos p).
Proof.
  unfold pretty, pretty_N. destruct (decide (N.pos p = 0%N)); [discriminate |].
  destruct (digits_pretty_N_go (N.pos p)) as [k [_ H]].
  rewrite H. reflexivity.
Qed.

(** [%d] of a number that is not negative writes digits only. *)
Lemma dash_free_fmt_d (n : Z) : 0 <= n -> dash_free (fmt_d n) = true.
Proof.
  intros Hn. apply no_dash_dash_free.
  destruct n as [|p|p]; [reflexivity | | lia].
  exact (digits_no_dash _ _ _ (digits_pretty_positive p)).
Qed.

(** One step along the argument string: a position where the needle does
    not start, a value that holds no flag, or the position of the flag
    itself. *)
Ltac prefix_matches :=
  repeat first [rewrite prefix_cons | rewrite prefix_app_same];
  first [apply prefix_nil | apply prefix_append | reflexivity].

Ltac count_step :=
  first
    [ rewrite occurrences_miss by (vm_compute; reflexivity)
    | rewrite occurrences_skip
        by first [assumption | vm_compute; reflexivity
                 | apply dash_free_fmt_d; lia]
    | rewrite occurrences_hit by prefix_matches ].

Ltac count_flag :=
  cbv [render render_flag]; rewrite ?append_assoc; unfold dq;
  cbn [String.append]; repeat count_step; reflexivity.

Lemma stop_flags_occur_once (debug : bool) (process cmd : string)
  (ignore : bool) (g : Serialised) :
  dash_free process = true ->
  dash_free cmd = true ->
  In g (Assigned "debug" (fmt_t debug)
        :: (if String.eqb process EmptyString
            then Quoted "process-cmd" cmd else Quoted "process" process)
        :: (if ignore then [Assigned "ignore-not-found" "true"] else [])) ->
  occurrences (render_flag g)
    (render "--start"
       (Assigned "debug" (fmt_t debug)
        :: (if String.eqb process EmptyString
            then Quoted "process-cmd" cmd else Quoted "process" process)
        :: (if ignore then [Assigned "ignore-not-found" "true"] else [])))
  = 1%nat.
Proof.
  intros Hp Hc.
  destruct debug, (String.eqb process EmptyString), ignore;
    cbn [In fmt_t]; intros H;
    repeat (destruct H as [<- | H]); try destruct H;
    count_flag.
Qed.

Lemma append_flags_occur_once (debug : bool)
  (filepath content count interval : string) (escape base64 : bool)
  (g : Serialised) :
  dash_free filepath = true ->
  dash_free content = true ->
  dash_free count = true ->
  dash_free interval = true ->
  In g ([Quoted "filepath" filepath; Quoted "content" content;
         Bare "count" count; Bare "interval" interval;
         Assigned "debug" (fmt_t debug)]
        ++ (if escape then [Assigned "escape" "true"] else [])
        ++ (if base64 then [Assigned "enable-base64" "true"] else [])) ->
  occurrences (render_flag g)
    (render "--start"
       ([Quoted "filepath" filepath; Quoted "content" content;
         Bare "count" count; Bare "interval" interval;
         Assigned "debug" (fmt_t debug)]
        ++ (if escape then [Assigned "escape" "true"] else [])
        ++ (if base64 then [Assigned "enable-base64" "true"] else [])))
  = 1%nat.
Proof.
  intros Hf Hc Hn Hi.
  destruct debug, escape, base64;
    cbn [In fmt_t app]; intros H;
    repeat (destruct H as [<- | H]); try destruct H;
    count_flag.
Qed.

#[local] Arguments String.append : simpl never.

Lemma positive_accepted_range (s : string) (n : Z) :
  positive_or_default s = Some n -> 1 <= n.
Proof.
  unfold positive_or_default.
  destruct (String.eqb s EmptyString); [intros [= <-]; lia |].
  destruct (Atoi s) as [m|]; [| discriminate].
  destruct (Z.ltb_spec m 1); [discriminate |]. intros [= <-]. lia.
Qed.

(** C4, as the code has it.  The argument string of a valid start request
    is [--start] followed by the flags the executor serialises, each written
    once, in this order.  Process stop writes [--debug=<debug>], then one
    matcher with its value in double quotes ([process], or [process-cmd]
    when [process] is empty; a [process-cmd] given beside [process] is left
    out), then [--ignore-not-found=true] when that flag is [true].  File
    append writes [filepath] and [content] with their values in double
    quotes, [count] and [interval] as plain decimal numbers (1 when not
    given), [--debug=<debug>], then [--escape=true] and
    [--enable-base64=true] when those flags are [true].  Values are copied
    as they are, so when no string value holds two dashes in a row the text
    of each serialised flag occurs exactly once in the argument string. *)
Theorem start_args_hold_each_serialised_flag_once
  (spe : StopProcessExecutor.t) (f : FileAppendActionExecutor.t)
  (ch : Channel) (host : Host) (uid : string) (ctx : Context)
  (model : ExpModel)
  (Hstart : snd (IsDestroy ctx) = false) :
  (StopProcessExecutor.channel spe = Some ch ->
   ~ (flag model "process" = EmptyString
      /\ flag model "process-cmd" = EmptyString) ->
   forall fs : list Serialised,
     fs = Assigned "debug" (fmt_t (Debug host))
          :: (if String.eqb (flag model "process") EmptyString
              then Quoted "process-cmd" (flag model "process-cmd")
              else Quoted "process" (flag model "process"))
          :: (if String.eqb (flag model "ignore-not-found") "true"
              then [Assigned "ignore-not-found" "true"] else []) ->
     runs (StopProcessExecutor.Exec spe host uid ctx model)
     = [ {| run_ctx := ctx;
            run_script := Join [GetScriptPath ch; StopProcessBin];
            run_args := render "--start" fs |} ]
     /\ String.prefix "--start" (render "--start" fs) = true
     /\ NoDup (map flag_name fs)
     /\ (forall g, In g fs ->
         contains (render_flag g) (render "--start" fs) = true)
     /\ (dash_free (flag model "process") = true ->
         dash_free (flag model "process-cmd") = true ->
         forall (call : RunCall) (g : Serialised),
           In call (runs (StopProcessExecutor.Exec spe host uid ctx model)) ->
           In g fs ->
           occurrences (render_flag g) (run_args call) = 1%nat))
  /\ (checkAppendFileExpEnv host = None ->
      FileAppendActionExecutor.channel f = Some ch ->
      forall count interval : Z,
        positive_or_default (flag model "count") = Some count ->
        positive_or_default (flag model "interval") = Some interval ->
        IsExist host (flag model "filepath") = true ->
        forall fs : list Serialised,
          fs = ([Quoted "filepath" (flag model "filepath");
                 Quoted "content" (flag model "content");
                 Bare "count" (fmt_d count);
                 Bare "interval" (fmt_d interval);
                 Assigned "debug" (fmt_t (Debug host))]
                ++ (if String.eqb (flag model "escape") "true"
                    then [Assigned "escape" "true"] else [])
                ++ (if String.eqb (flag model "enable-base64") "true"
                    then [Assigned "enable-base64" "true"] else []))%list ->
          runs (FileAppendActionExecutor.Exec f host uid ctx model)
          = [ {| run_ctx := ctx;
                 run_script := Join [GetScriptPath ch; AppendFileBin];
                 run_args := render "--start" fs |} ]
          /\ String.prefix "--start" (render "--start" fs) = true
          /\ NoDup (map flag_name fs)
          /\ (forall g, In g fs ->
              contains (render_flag g) (render "--start" fs) = true)
          /\ (dash_free (flag model "filepath") = true ->
              dash_free (flag model "content") = true ->
              forall (call : RunCall) (g : Serialised),
                In call
                  (runs (FileAppendActionExecutor.Exec f host uid ctx model)) ->
                In g fs ->
                occurrences (render_flag g) (run_args call) = 1%nat)).
Proof.
  split.
  - intros Hch Hm fs ->.
    rewrite (stop_Exec_delegates host uid ctx model spe ch Hch Hm).
    unfold mode_flag. rewrite Hstart.
    split; [reflexivity |].
    split; [apply prefix_render; reflexivity |].
    split; [apply stop_flag_names_NoDup |].
    split; [intros g Hg; now apply contains_render |].
    intros Hp Hc call g [<- | []] Hg. cbn [run_args].
    now apply stop_flags_occur_once.
  - intros He Hch count interval Hc Hi Hx fs ->.
    rewrite (append_Exec_start host uid ctx model f ch He Hch Hstart).
    rewrite Hc, Hi, Hx.
    split; [reflexivity |].
    split; [apply prefix_render; reflexivity |].
    split; [apply append_flag_names_NoDup |].
    split; [intros g Hg; now apply contains_render |].
    intros Hfp Hcontent call g [<- | []] Hg. cbn [run_args].
    apply append_flags_occur_once; try assumption.
    + apply dash_free_fmt_d.
      pose proof (positive_accepted_range _ _ Hc). lia.
    + apply dash_free_fmt_d.
      pose proof (positive_accepted_range _ _ Hi). lia.
Qed.

Lemma start_args_hold_each_serialised_flag_once_holds :
  runs (StopProcessExecutor.Exec bound_stop full_host "uid" create_ctx
          (model_of [("process", "nginx"); ("ignore-not-found", "true")]))
  = [ {| run_ctx := create_ctx;
         run_script := "/opt/chaosblade/bin/chaos_stopprocess";
         run_args := "--start --debug=false --process " +:+ dq +:+ "nginx"
                     +:+ dq +:+ " --ignore-not-found=true" |} ]
  /\ occurrences ("--process " +:+ dq +:+ "nginx" +:+ dq)
       ("--start --debug=false --process " +:+ dq +:+ "nginx" +:+ dq
        +:+ " --ignore-not-found=true") = 1%nat
  /\ runs (FileAppendActionExecutor.Exec bound_append full_host "uid"
             create_ctx
             (model_of [("filepath", "/tmp/a.log"); ("content", "hi");
                        ("count", "+3"); ("escape", "true")]))
     = [ {| run_ctx := create_ctx;
            run_script := "/opt/chaosblade/bin/chaos_appendfile";
            run_args := "--start --filepath " +:+ dq +:+ "/tmp/a.log" +:+ dq
                        +:+ " --content " +:+ dq +:+ "hi" +:+ dq
                        +:+ " --count 3 --interval 1 --debug=false"
                        +:+ " --escape=true" |} ]
  /\ occurrences "--count 3"
       ("--start --filepath " +:+ dq +:+ "/tmp/a.log" +:+ dq
        +:+ " --content " +:+ dq +:+ "hi" +:+ dq
        +:+ " --count 3 --interval 1 --debug=false" +:+ " --escape=true")
     = 1%nat.
Proof.
  assert (Hmatcher :
    ~ (flag (model_of [("process", "nginx"); ("ignore-not-found", "true")])
         "process" = EmptyString
       /\ flag (model_of [("process", "nginx"); ("ignore-not-found", "true")])
            "process-cmd" = EmptyString)).
  { intros [H _]. vm_compute in H. discriminate. }
  destruct (proj1 (start_args_hold_each_serialised_flag_once
                     bound_stop bound_append echo_channel full_host
                     "uid" create_ctx
                     (model_of [("process", "nginx");
                                ("ignore-not-found", "true")])
                     eq_refl) eq_refl Hmatcher _ eq_refl)
    as [Hruns [_ [_ [_ Honce]]]].
  destruct (proj2 (start_args_hold_each_serialised_flag_once
                     bound_stop bound_append echo_channel full_host
                     "uid" create_ctx
                     (model_of [("filepath", "/tmp/a.log");
                                ("content", "hi"); ("count", "+3");
                                ("escape", "true")])
                     eq_refl) eq_refl eq_refl 3 1 eq_refl eq_refl
              eq_refl _ eq_refl)
    as [Hruns' [_ [_ [_ Honce']]]].
  split; [exact Hruns |]. split; [| split; [exact Hruns' |]].
  - exact (Honce eq_refl eq_refl _ (Quoted "process" "nginx")
             (or_introl eq_refl) (or_intror (or_introl eq_refl))).
  - exact (Honce' eq_refl eq_refl _ (Bare "count" "3")
             (or_introl eq_refl)
             (or_intror (or_intror (or_introl eq_refl)))).
Defined.

(** The condition on the values is needed: a value that holds the text of
    a flag makes that text occur twice. *)
Example flag_text_in_a_value_occurs_again :
  map (fun call => occurrences "--debug=false" (run_args call))
    (runs (StopProcessExecutor.Exec bound_stop full_host "uid" create_ctx
             (model_of [("process-cmd", "java --debug=false")])))
  = [2%nat]
  /\ dash_free "java --debug=false" = false.
Proof. split; vm_compute; reflexivity. Qed.

(** C4 as stated fails.  A start request to process stop that supplies
    both matchers is valid, and its argument string holds [process] alone:
    [--process-cmd "java"] occurs nowhere in it.  A start request to file
    append writes the count without quotes: [--count "3"] occurs nowhere. *)
Lemma supplied_flags_left_out_or_unquoted :
  (runs (StopProcessExecutor.Exec bound_stop full_host "uid" create_ctx
           (model_of [("process", "nginx"); ("process-cmd", "java")]))
   = [ {| run_ctx := create_ctx;
          run_script := "/opt/chaosblade/bin/chaos_stopprocess";
          run_args := "--start --debug=false --process " +:+ dq +:+ "nginx"
                      +:+ dq |} ]
   /\ ~ every_flag_quoted_once
          (model_of [("process", "nginx"); ("process-cmd", "java")])
          ("--start --debug=false --process " +:+ dq +:+ "nginx" +:+ dq))
  /\ (runs (FileAppendActionExecutor.Exec bound_append full_host "uid"
              create_ctx
              (model_of [("filepath", "/tmp/a.log"); ("content", "hi");
                         ("count", "3")]))
      = [ {| run_ctx := create_ctx;
             run_script := "/opt/chaosblade/bin/chaos_appendfile";
             run_args := "--start --filepath " +:+ dq +:+ "/tmp/a.log"
                         +:+ dq +:+ " --content " +:+ dq +:+ "hi" +:+ dq
                         +:+ " --count 3 --interval 1 --debug=false" |} ]
      /\ ~ every_flag_quoted_once
             (model_of [("filepath", "/tmp/a.log"); ("content", "hi");
                        ("count", "3")])
             ("--start --filepath " +:+ dq +:+ "/tmp/a.log" +:+ dq
              +:+ " --content " +:+ dq +:+ "hi" +:+ dq
              +:+ " --count 3 --interval 1 --debug=false")).
Proof.
  split; (split; [vm_compute; reflexivity |]).
  - intros [_ H]. specialize (H "process-cmd" "java" eq_refl).
    vm_compute in H. discriminate.
  - intros [_ H]. specialize (H "count" "3" eq_refl).
    vm_compute in H. discriminate.
Qed.

(** ** The flag string as a function of the flags *)

(** C8.  The argument string is a function of the flags the executor
    reads, the global debug flag and the phase: two process-stop requests
    that agree on [process], [process-cmd], [ignore-not-found], on the debug
    flag and on the presence of the destroy marker hand [Run] the same text,
    whatever the uid, the rest of the context, the channel and the host;
    likewise two valid start requests to file append that agree on
    [filepath], [content], [count], [interval], [escape] and
    [enable-base64].  The order is fixed.  Of the flags that come from the
    mapping the primary matcher is written first and the optional switches
    last: process stop writes the matcher, then [ignore-not-found]; file
    append writes [filepath], then [content], [count], [interval], then
    [escape] and [enable-base64]. *)
Theorem flag_string_is_deterministic_and_ordered
  (spe : StopProcessExecutor.t) (f : FileAppendActionExecutor.t)
  (ch : Channel) (host : Host) (uid : string) (ctx : Context)
  (model : ExpModel) :
  (StopProcessExecutor.channel spe = Some ch ->
   ~ (flag model "process" = EmptyString
      /\ flag model "process-cmd" = EmptyString) ->
   (exists fs : list Serialised,
      map run_args (runs (StopProcessExecutor.Exec spe host uid ctx model))
      = [render (mode_flag ctx) fs]
      /\ fs = Assigned "debug" (fmt_t (Debug host))
              :: process_matcher model :: switch model "ignore-not-found"
      /\ from_model fs
         = process_matcher model :: switch model "ignore-not-found")
   /\ (forall (spe' : StopProcessExecutor.t) (ch' : Channel) (host' : Host)
              (uid' : string) (ctx' : Context) (model' : ExpModel),
       StopProcessExecutor.channel spe' = Some ch' ->
       Debug host' = Debug host ->
       snd (IsDestroy ctx') = snd (IsDestroy ctx) ->
       flag model' "process" = flag model "process" ->
       flag model' "process-cmd" = flag model "process-cmd" ->
       flag model' "ignore-not-found" = flag model "ignore-not-found" ->
       map run_args
         (runs (StopProcessExecutor.Exec spe' host' uid' ctx' model'))
       = map run_args
           (runs (StopProcessExecutor.Exec spe host uid ctx model))))
  /\ (checkAppendFileExpEnv host = None ->
      FileAppendActionExecutor.channel f = Some ch ->
      snd (IsDestroy ctx) = false ->
      forall count interval : Z,
        positive_or_default (flag model "count") = Some count ->
        positive_or_default (flag model "interval") = Some interval ->
        IsExist host (flag model "filepath") = true ->
        (exists fs : list Serialised,
           map run_args
             (runs (FileAppendActionExecutor.Exec f host uid ctx model))
           = [render "--start" fs]
           /\ fs = ([Quoted "filepath" (flag model "filepath");
                     Quoted "content" (flag model "content");
                     Bare "count" (fmt_d count);
                     Bare "interval" (fmt_d interval);
                     Assigned "debug" (fmt_t (Debug host))]
                    ++ switch model "escape"
                    ++ switch model "enable-base64")%list
           /\ from_model fs
              = ([Quoted "filepath" (flag model "filepath");
                  Quoted "content" (flag model "content");
                  Bare "count" (fmt_d count);
                  Bare "interval" (fmt_d interval)]
                 ++ switch model "escape"
                 ++ switch model "enable-base64")%list)
        /\ (forall (f' : FileAppendActionExecutor.t) (ch' : Channel)
                   (host' : Host) (uid' : string) (ctx' : Context)
                   (model' : ExpModel),
            checkAppendFileExpEnv host' = None ->
            FileAppendActionExecutor.channel f' = Some ch' ->
            snd (IsDestroy ctx') = false ->
            IsExist host' (flag model' "filepath") = true ->
            Debug host' = Debug host ->
            flag model' "filepath" = flag model "filepath" ->
            flag model' "content" = flag model "content" ->
            flag model' "count" = flag model "count" ->
            flag model' "interval" = flag model "interval" ->
            flag model' "escape" = flag model "escape" ->
            flag model' "enable-base64" = flag model "enable-base64" ->
            map run_args
              (runs (FileAppendActionExecutor.Exec f' host' uid' ctx' model'))
            = map run_args
                (runs (FileAppendActionExecutor.Exec f host uid ctx model)))).
Proof.
  split.
  - intros Hch Hm.
    rewrite (stop_Exec_delegates host uid ctx model spe ch Hch Hm).
    split.
    + eexists. split; [reflexivity |]. split; [reflexivity |].
      unfold from_model, process_matcher, switch.
      destruct (String.eqb (flag model "process") EmptyString);
        destruct (String.eqb (flag model "ignore-not-found") "true");
        reflexivity.
    + intros spe' ch' host' uid' ctx' model' Hch' Hdebug Hphase Hp Hc Hi.
      rewrite (stop_Exec_delegates host' uid' ctx' model' spe' ch' Hch')
        by (rewrite Hp, Hc; exact Hm).
      unfold process_matcher, switch, mode_flag.
      now rewrite Hdebug, Hphase, Hp, Hc, Hi.
  - intros He Hch Hstart count interval Hcount Hinterval Hx.
    rewrite (append_Exec_start host uid ctx model f ch He Hch Hstart).
    rewrite Hcount, Hinterval, Hx.
    split.
    + eexists. split; [reflexivity |]. split; [reflexivity |].
      unfold from_model, switch.
      destruct (String.eqb (flag model "escape") "true");
        destruct (String.eqb (flag model "enable-base64") "true");
        reflexivity.
    + intros f' ch' host' uid' ctx' model' He' Hch' Hstart' Hx' Hdebug
        Hfp Hcontent Hc Hi Hescape Hbase64.
      rewrite (append_Exec_start host' uid' ctx' model' f' ch' He' Hch'
                 Hstart').
      rewrite Hc, Hi, Hcount, Hinterval, Hx'. unfold switch.
      now rewrite Hdebug, Hfp, Hcontent, Hescape, Hbase64.
Qed.

Lemma flag_string_is_deterministic_and_ordered_holds :
  exists fs : list Serialised,
    map run_args
      (runs (StopProcessExecutor.Exec bound_stop full_host "uid" destroy_ctx
               (model_of [("process-cmd", "java");
                          ("ignore-not-found", "true")])))
    = [render "--stop" fs]
    /\ fs = [Assigned "debug" "false"; Quoted "process-cmd" "java";
             Assigned "ignore-not-found" "true"]
    /\ from_model fs = [Quoted "process-cmd" "java";
                        Assigned "ignore-not-found" "true"].
Proof.
  refine (proj1 (proj1 (flag_string_is_deterministic_and_ordered bound_stop
                          bound_append echo_channel full_host "uid"
                          destroy_ctx
                          (model_of [("process-cmd", "java");
                                     ("ignore-not-found", "true")]))
                   eq_refl _)).
  intros [_ H]. vm_compute in H. discriminate.
Defined.

(** ** [strconv.Atoi] against [%d] *)

Lemma Atoi_in_range (s : string) (n : Z) :
  Atoi s = Some n -> minInt <= n <= maxInt.
Proof.
  unfold Atoi. destruct s as [|c rest]; [discriminate |].
  cbv zeta.
  destruct (if Ascii.eqb c "-" || Ascii.eqb c "+" then rest else String c rest);
    [discriminate |].
  match goal with |- context [digits ?b 0] => destruct (digits b 0) end;
    [| discriminate].
  match goal with
  | |- context [(minInt <=? ?v) && (?v <=? maxInt)] =>
      destruct (Z.leb_spec minInt v); destruct (Z.leb_spec v maxInt);
      cbn [andb]; try discriminate
  end.
  intros [= <-]. lia.
Qed.




(** The decimal text of a positive number starts with a digit. *)
Lemma pretty_positive_head (p : positive) :
  exists (c : ascii) (rest : string),
    pretty (N.pos p) = String c rest /\ digit c <> None.
Proof.
  pose proof (digits_pretty_positive p) as H.
  destruct (pretty (N.pos p)) as [|c rest]; [discriminate |].
  exists c, rest. split; [reflexivity |].
  cbn [digits] in H. destruct (digit c); [discriminate | discriminate].
Qed.

Lemma digit_not_sign (c : ascii) :
  digit c <> None -> Ascii.eqb c "-" = false /\ Ascii.eqb c "+" = false.
Proof.
  intros H. split.
  - destruct (Ascii.eqb_spec c "-") as [-> |]; [| reflexivity].
    exfalso. apply H. reflexivity.
  - destruct (Ascii.eqb_spec c "+") as [-> |]; [| reflexivity].
    exfalso. apply H. reflexivity.
Qed.

(** What [%d] writes, [Atoi] reads back: every [int]. *)
Lemma fmt_d_pos (p : positive) : fmt_d (Z.pos p) = pretty (N.pos p).
Proof. reflexivity. Qed.

Lemma fmt_d_neg (p : positive) :
  fmt_d (Z.neg p) = String "-" (pretty (N.pos p)).
Proof. reflexivity. Qed.

Lemma Atoi_fmt_d (n : Z) :
  minInt <= n <= maxInt -> Atoi (fmt_d n) = Some n.
Proof.
  intros Hn. destruct n as [|p|p].
  - reflexivity.
  - rewrite fmt_d_pos.
    destruct (pretty_positive_head p) as [c [rest [E Hc]]].
    pose proof (digits_pretty_positive p) as Hd. rewrite E in Hd |- *.
    destruct (digit_not_sign c Hc) as [Hm Hp].
    unfold Atoi. rewrite Hm, Hp. cbn [orb]. rewrite Hd.
    destruct (Z.leb_spec minInt (Z.pos p)); [| lia].
    destruct (Z.leb_spec (Z.pos p) maxInt); [| lia]. reflexivity.
  - rewrite fmt_d_neg.
    destruct (pretty_positive_head p) as [c [rest [E Hc]]].
    pose proof (digits_pretty_positive p) as Hd. rewrite E in Hd |- *.
    unfold Atoi. change (Ascii.eqb "-" "-") with true. cbn [orb].
    rewrite Hd. change (- Z.pos p) with (Z.neg p).
    destruct (Z.leb_spec minInt (Z.neg p)); [| lia].
    destruct (Z.leb_spec (Z.neg p) maxInt); [| lia]. reflexivity.
Qed.

Lemma fmt_d_not_empty (n : Z) : fmt_d n <> EmptyString.
Proof.
  destruct n as [|p|p]; [discriminate | | discriminate].
  rewrite fmt_d_pos.
  destruct (pretty_positive_head p) as [c [rest [-> _]]]. discriminate.
Qed.

Lemma positive_or_default_in_range (s : string) (n : Z) :
  positive_or_default s = Some n -> 1 <= n <= maxInt.
Proof.
  unfold positive_or_default.
  destruct (String.eqb s EmptyString).
  - intros [= <-]. unfold maxInt. lia.
  - destruct (Atoi s) as [m|] eqn:E; [| discriminate].
    destruct (Z.ltb_spec m 1); [discriminate |].
    intros [= <-]. apply Atoi_in_range in E. lia.
Qed.

Lemma positive_or_default_fmt_d (n : Z) :
  1 <= n <= maxInt -> positive_or_default (fmt_d n) = Some n.
Proof.
  intros Hn. unfold positive_or_default.
  destruct (String.eqb_spec (fmt_d n) EmptyString) as [E|_].
  - now apply fmt_d_not_empty in E.
  - rewrite Atoi_fmt_d by (unfold minInt; lia).
    destruct (Z.ltb_spec n 1); [lia | reflexivity].
Qed.

(** ** [path.Join] with a file name as the last element *)

Lemma components_not_nil (p : string) : components p <> [].
Proof.
  induction p as [|c p IH]; [discriminate |].
  cbn [components]. destruct (Ascii.eqb c "/"); [discriminate |].
  destruct (components p); [congruence | discriminate].
Qed.

Lemma components_slash (a b : string) :
  components (a +:+ String "/" b) = (components a ++ components b)%list.
Proof.
  induction a as [|c a IH]; [reflexivity |].
  rewrite append_cons. cbn [components]. rewrite IH.
  destruct (Ascii.eqb c "/"); [reflexivity |].
  pose proof (components_not_nil a) as Ha.
  destruct (components a); [congruence | reflexivity].
Qed.

Lemma concat_snoc (sep : string) (l : list string) (b : string) :
  String.concat sep (l ++ [b])
  = match l with
    | [] => b
    | _ => String.concat sep l +:+ sep +:+ b
    end.
Proof.
  induction l as [|x l IH]; [reflexivity |].
  cbn [app]. destruct l as [|y l]; [reflexivity |].
  change (String.concat sep (x :: (y :: l) ++ [b]))
    with (x +:+ sep +:+ String.concat sep ((y :: l) ++ [b])).
  rewrite IH.
  change (String.concat sep (x :: y :: l))
    with (x +:+ sep +:+ String.concat sep (y :: l)).
  now rewrite !append_assoc.
Qed.

Lemma clean_step_plain (rooted : bool) (kept : list string) (name : string) :
  plain_name name -> clean_step rooted kept name = name :: kept.
Proof. intros [_ [H1 H2]]. unfold clean_step. now rewrite H1, H2. Qed.

Lemma Clean_plain (name : string) : plain_name name -> Clean name = name.
Proof.
  intros H. pose proof H as [Hc [He _]].
  destruct name as [|c r]; [discriminate |].
  unfold Clean. rewrite Hc. cbn [fold_left].
  rewrite (clean_step_plain _ [] _ H). cbn [rev app].
  destruct (Ascii.eqb_spec c "/") as [-> |]; [| reflexivity].
  cbn [components Ascii.eqb] in Hc.
  change (Ascii.eqb "/" "/") with true in Hc. cbv iota in Hc. discriminate.
Qed.

Lemma Clean_ends_with (p name : string) :
  p <> EmptyString -> plain_name name ->
  exists dir : string,
    Clean (p +:+ String "/" name) = dir +:+ name /\ is_dir_prefix dir.
Proof.
  intros Hp H. destruct p as [|c r]; [congruence |].
  rewrite append_cons. unfold Clean. rewrite <- append_cons.
  rewrite components_slash, (proj1 H), fold_left_app. cbn [fold_left].
  rewrite clean_step_plain by exact H.
  cbn [rev]. rewrite concat_snoc.
  set (kept := rev (fold_left (clean_step (Ascii.eqb c "/"))
                      (components (String c r)) [])).
  destruct (Ascii.eqb c "/"); destruct kept as [|k kept].
  - exists "/". split; [reflexivity |]. right. now exists EmptyString.
  - exists ("/" +:+ String.concat "/" (k :: kept) +:+ "/").
    split; [now rewrite !append_assoc |]. right.
    exists ("/" +:+ String.concat "/" (k :: kept)).
    now rewrite !append_assoc.
  - exists EmptyString. split; [reflexivity |]. now left.
  - exists (String.concat "/" (k :: kept) +:+ "/").
    split; [now rewrite !append_assoc |]. right. now eexists.
Qed.

Lemma Join_ends_with (p name : string) :
  plain_name name ->
  exists dir : string, Join [p; name] = dir +:+ name /\ is_dir_prefix dir.
Proof.
  intros H. cbn [Join].
  destruct (String.eqb_spec p EmptyString) as [-> | Hp].
  - assert (String.eqb name EmptyString = false) as ->.
    { destruct H as [_ [H1 _]]. now apply orb_false_elim in H1. }
    change (String.concat "/" [name]) with name.
    rewrite Clean_plain by exact H.
    exists EmptyString. split; [reflexivity |]. now left.
  - change (String.concat "/" [p; name]) with (p +:+ String "/" name).
    now apply Clean_ends_with.
Qed.

Lemma StopProcessBin_plain : plain_name StopProcessBin.
Proof. repeat split. Qed.

Lemma AppendFileBin_plain : plain_name AppendFileBin.
Proof. repeat split. Qed.

(** ** Reading single flags *)

Lemma flag_with_flag_eq (model : ExpModel) (name value : string) :
  flag (with_flag model name value) name = value.
Proof. unfold flag, with_flag; cbn [ActionFlags]. now rewrite lookup_insert_eq. Qed.

Lemma flag_with_flag_ne (model : ExpModel) (name name' value : string) :
  name <> name' -> flag (with_flag model name value) name' = flag model name'.
Proof.
  intros H. unfold flag, with_flag; cbn [ActionFlags].
  now rewrite lookup_insert_ne.
Qed.

Lemma flag_without_flag_eq (model : ExpModel) (name : string) :
  flag (without_flag model name) name = EmptyString.
Proof.
  unfold flag, without_flag; cbn [ActionFlags]. now rewrite lookup_delete_eq.
Qed.

Lemma flag_without_flag_ne (model : ExpModel) (name name' : string) :
  name <> name' -> flag (without_flag model name) name' = flag model name'.
Proof.
  intros H. unfold flag, without_flag; cbn [ActionFlags].
  now rewrite lookup_delete_ne.
Qed.

(** ** Each executor as a function of the flags it reads *)

Lemma stop_Exec_ext (spe : StopProcessExecutor.t) (host : Host)
  (uid : string) (ctx : Context) (model model' : ExpModel) :
  flag model' "process" = flag model "process" ->
  flag model' "process-cmd" = flag model "process-cmd" ->
  String.eqb (flag model' "ignore-not-found") "true"
  = String.eqb (flag model "ignore-not-found") "true" ->
  StopProcessExecutor.Exec spe host uid ctx model'
  = StopProcessExecutor.Exec spe host uid ctx model.
Proof.
  intros Hp Hc Hi. unfold StopProcessExecutor.Exec. now rewrite Hp, Hc, Hi.
Qed.

(** The block that parses [count] or [interval], by its outcome. *)
Lemma parse_block (s message : string) :
  (if negb (String.eqb s EmptyString) then
     match Atoi s with
     | Some n =>
         if n <? 1 then inl (ReturnFail IllegalParameters message) else inr n
     | None => inl (ReturnFail IllegalParameters message)
     end
   else inr 1)
  = match positive_or_default s with
    | Some n => inr n
    | None => inl (ReturnFail IllegalParameters message)
    end.
Proof.
  unfold positive_or_default.
  destruct (String.eqb s EmptyString); [reflexivity |]. cbn [negb].
  destruct (Atoi s) as [n|]; [| reflexivity].
  now destruct (n <? 1).
Qed.

Lemma append_Exec_cases (f : FileAppendActionExecutor.t) (host : Host)
  (uid : string) (ctx : Context) (model : ExpModel) :
  FileAppendActionExecutor.Exec f host uid ctx model
  = match checkAppendFileExpEnv host with
    | Some err => ret (ReturnFail CommandNotFound err)
    | None =>
        match FileAppendActionExecutor.channel f with
        | None => ret (ReturnFail ServerError "channel is nil")
        | Some ch =>
            if snd (IsDestroy ctx) then
              FileAppendActionExecutor.stop ch host (flag model "filepath") ctx
            else
              match positive_or_default (flag model "count") with
              | None =>
                  ret (ReturnFail IllegalParameters
                         "--count value must be a positive integer")
              | Some count =>
                  match positive_or_default (flag model "interval") with
                  | None =>
                      ret (ReturnFail IllegalParameters
                             "--interval value must be a positive integer")
                  | Some interval =>
                      if IsExist host (flag model "filepath") then
                        FileAppendActionExecutor.start ch host
                          (flag model "filepath") (flag model "content")
                          count interval
                          (String.eqb (flag model "escape") "true")
                          (String.eqb (flag model "enable-base64") "true")
                          ctx
                      else
                        ret (ReturnFail IllegalParameters
                               ("the " +:+ flag model "filepath"
                                +:+ " file does not exist"))
                  end
              end
        end
    end.
Proof.
  unfold FileAppendActionExecutor.Exec.
  destruct (checkAppendFileExpEnv host); [reflexivity |].
  destruct (FileAppendActionExecutor.channel f); [| reflexivity].
  destruct (snd (IsDestroy ctx)); [reflexivity |].
  rewrite !parse_block, Sprintf_not_exist.
  destruct (positive_or_default (flag model "count")); [| reflexivity].
  destruct (positive_or_default (flag model "interval")); [| reflexivity].
  now destruct (IsExist host (flag model "filepath")).
Qed.

Lemma append_Exec_by_value (f : FileAppendActionExecutor.t) (host : Host)
  (uid : string) (ctx : Context) (model model' : ExpModel) :
  flag model' "filepath" = flag model "filepath" ->
  flag model' "content" = flag model "content" ->
  positive_or_default (flag model' "count")
  = positive_or_default (flag model "count") ->
  positive_or_default (flag model' "interval")
  = positive_or_default (flag model "interval") ->
  String.eqb (flag model' "escape") "true"
  = String.eqb (flag model "escape") "true" ->
  String.eqb (flag model' "enable-base64") "true"
  = String.eqb (flag model "enable-base64") "true" ->
  FileAppendActionExecutor.Exec f host uid ctx model'
  = FileAppendActionExecutor.Exec f host uid ctx model.
Proof.
  intros Hfp Hcontent Hcount Hinterval Hescape Hbase64.
  rewrite !append_Exec_cases.
  now rewrite Hfp, Hcontent, Hcount, Hinterval, Hescape, Hbase64.
Qed.

Lemma render_from_mode (mode : string) (fs : list Serialised) :
  render mode fs = mode +:+ render EmptyString fs.
Proof.
  revert mode; induction fs as [|f fs IH]; intros mode.
  - cbn [render]. now rewrite append_nil_r.
  - cbn [render]. rewrite IH, (IH (EmptyString +:+ " " +:+ render_flag f)).
    now rewrite !append_assoc.
Qed.

Lemma first_missing_echo_kill (host : Host) :
  checkAppendFileExpEnv host
  = if IsCommandAvailable host "echo" then
      if IsCommandAvailable host "kill" then None
      else Some "kill command not found"
    else Some "echo command not found".
Proof.
  unfold checkAppendFileExpEnv. cbn [first_missing].
  destruct (IsCommandAvailable host "echo"); [| reflexivity].
  now destruct (IsCommandAvailable host "kill").
Qed.

(** ** The host check of file append *)

(** X1.  [checkAppendFileExpEnv] passes exactly when the host has both
    [echo] and [kill].  It tests [echo] first: a host without [echo] is
    reported as lacking [echo] whether or not it has [kill], and [kill] is
    reported only when [echo] is there. *)
Theorem host_check_reports_first_missing_command (host : Host) :
  (checkAppendFileExpEnv host = None
   <-> IsCommandAvailable host "echo" = true
       /\ IsCommandAvailable host "kill" = true)
  /\ (IsCommandAvailable host "echo" = false ->
      checkAppendFileExpEnv host = Some "echo command not found")
  /\ (IsCommandAvailable host "echo" = true ->
      IsCommandAvailable host "kill" = false ->
      checkAppendFileExpEnv host = Some "kill command not found").
Proof.
  rewrite first_missing_echo_kill.
  destruct (IsCommandAvailable host "echo"),
    (IsCommandAvailable host "kill"); repeat split; intros;
    try congruence; try tauto; try (destruct H; congruence).
Qed.

(** ** Every outcome of [Exec] *)

(** X2.  Whatever the request, process stop either answers one of its two
    local failures without calling [Run], or calls [Run] exactly once on
    the bound channel with the caller's context and returns that call's
    response. *)
Theorem stop_Exec_outcomes
  (spe : StopProcessExecutor.t) (host : Host) (uid : string) (ctx : Context)
  (model : ExpModel) :
  (runs (StopProcessExecutor.Exec spe host uid ctx model) = []
   /\ In (response (StopProcessExecutor.Exec spe host uid ctx model))
        [ReturnFail ServerError "channel is nil";
         ReturnFail IllegalParameters "less process matcher"])
  \/ (exists (ch : Channel) (script args : string),
        StopProcessExecutor.channel spe = Some ch
        /\ runs (StopProcessExecutor.Exec spe host uid ctx model)
           = [ {| run_ctx := ctx; run_script := script; run_args := args |} ]
        /\ response (StopProcessExecutor.Exec spe host uid ctx model)
           = Run ch ctx script args).
Proof.
  destruct (StopProcessExecutor.channel spe) as [ch|] eqn:Hch.
  - destruct (String.eqb_spec (flag model "process") EmptyString) as [Hp|Hp].
    + destruct (String.eqb_spec (flag model "process-cmd") EmptyString)
        as [Hc|Hc].
      * left. rewrite (stop_Exec_no_matcher host uid ctx model spe ch Hch Hp Hc).
        split; [reflexivity | right; left; reflexivity].
      * right. rewrite (stop_Exec_delegates host uid ctx model spe ch Hch)
          by tauto.
        exists ch. do 2 eexists. repeat split.
    + right. rewrite (stop_Exec_delegates host uid ctx model spe ch Hch)
        by tauto.
      exists ch. do 2 eexists. repeat split.
  - left. rewrite (stop_Exec_unbound host uid ctx model spe Hch).
    split; [reflexivity | left; reflexivity].
Qed.

(** X3.  Whatever the request, file append either answers one of six
    local failures without calling [Run] (a missing [echo] or [kill], no
    channel, a bad count, a bad interval, a file that does not exist), or
    calls [Run] exactly once on the bound channel with the caller's context
    and returns that call's response. *)
Theorem append_Exec_outcomes
  (f : FileAppendActionExecutor.t) (host : Host) (uid : string)
  (ctx : Context) (model : ExpModel) :
  (runs (FileAppendActionExecutor.Exec f host uid ctx model) = []
   /\ In (response (FileAppendActionExecutor.Exec f host uid ctx model))
        [ReturnFail CommandNotFound "echo command not found";
         ReturnFail CommandNotFound "kill command not found";
         ReturnFail ServerError "channel is nil";
         ReturnFail IllegalParameters
           "--count value must be a positive integer";
         ReturnFail IllegalParameters
           "--interval value must be a positive integer";
         ReturnFail IllegalParameters
           ("the " +:+ flag model "filepath" +:+ " file does not exist")])
  \/ (exists (ch : Channel) (script args : string),
        FileAppendActionExecutor.channel f = Some ch
        /\ runs (FileAppendActionExecutor.Exec f host uid ctx model)
           = [ {| run_ctx := ctx; run_script := script; run_args := args |} ]
        /\ response (FileAppendActionExecutor.Exec f host uid ctx model)
           = Run ch ctx script args).
Proof.
  rewrite append_Exec_cases, first_missing_echo_kill.
  destruct (IsCommandAvailable host "echo");
    [| left; split; [reflexivity | cbn [In]; tauto]].
  destruct (IsCommandAvailable host "kill");
    [| left; split; [reflexivity | cbn [In]; tauto]].
  destruct (FileAppendActionExecutor.channel f) as [ch|];
    [| left; split; [reflexivity | cbn [In]; tauto]].
  destruct (snd (IsDestroy ctx)).
  { right. rewrite stop_calls. exists ch. do 2 eexists. repeat split. }
  destruct (positive_or_default (flag model "count"));
    [| left; split; [reflexivity | cbn [In]; tauto]].
  destruct (positive_or_default (flag model "interval"));
    [| left; split; [reflexivity | cbn [In]; tauto]].
  destruct (IsExist host (flag model "filepath"));
    [| left; split; [reflexivity | cbn [In]; tauto]].
  right. rewrite start_calls. exists ch. do 2 eexists. repeat split.
Qed.

(** ** Create and destroy in process stop *)

(** X4.  For one model, the create request and the destroy request to
    process stop run the same program with the same flags: the two
    argument strings differ in the leading [--start] or [--stop] only. *)
Theorem stop_create_and_destroy_differ_in_mode
  (spe : StopProcessExecutor.t) (ch : Channel) (host : Host) (uid : string)
  (create destroy : Context) (model : ExpModel)
  (Hch : StopProcessExecutor.channel spe = Some ch)
  (Hmatcher : ~ (flag model "process" = EmptyString
                 /\ flag model "process-cmd" = EmptyString))
  (Hcreate : snd (IsDestroy create) = false)
  (Hdestroy : snd (IsDestroy destroy) = true) :
  exists script rest : string,
    runs (StopProcessExecutor.Exec spe host uid create model)
    = [ {| run_ctx := create; run_script := script;
           run_args := "--start" +:+ rest |} ]
    /\ runs (StopProcessExecutor.Exec spe host uid destroy model)
       = [ {| run_ctx := destroy; run_script := script;
              run_args := "--stop" +:+ rest |} ].
Proof.
  rewrite !(stop_Exec_delegates host uid _ model spe ch Hch Hmatcher).
  unfold mode_flag. rewrite Hcreate, Hdestroy.
  rewrite (render_from_mode "--start"), (render_from_mode "--stop").
  do 2 eexists. split; reflexivity.
Qed.

Lemma stop_create_and_destroy_differ_in_mode_holds :
  exists script rest : string,
    runs (StopProcessExecutor.Exec bound_stop full_host "uid" create_ctx
            (model_of [("process-cmd", "java")]))
    = [ {| run_ctx := create_ctx; run_script := script;
           run_args := "--start" +:+ rest |} ]
    /\ runs (StopProcessExecutor.Exec bound_stop full_host "uid" destroy_ctx
               (model_of [("process-cmd", "java")]))
       = [ {| run_ctx := destroy_ctx; run_script := script;
              run_args := "--stop" +:+ rest |} ].
Proof.
  apply (stop_create_and_destroy_differ_in_mode bound_stop echo_channel
           full_host "uid" create_ctx destroy_ctx
           (model_of [("process-cmd", "java")]));
    try reflexivity.
  intros [_ H]. vm_compute in H. discriminate.
Defined.

(** ** The checks of file append, in their order *)

(** X5.  On the start path of file append, past the host check and with a
    channel bound, the count is judged first: a bad count is answered with
    the count message whatever the interval and the file are, and a bad
    interval is answered with the interval message whether or not the file
    exists. *)
Theorem count_is_judged_before_interval_and_file
  (f : FileAppendActionExecutor.t) (ch : Channel) (host : Host)
  (uid : string) (ctx : Context) (model : ExpModel)
  (Henv : checkAppendFileExpEnv host = None)
  (Hch : FileAppendActionExecutor.channel f = Some ch)
  (Hstart : snd (IsDestroy ctx) = false) :
  (not_positive (flag model "count") ->
   FileAppendActionExecutor.Exec f host uid ctx model
   = ret (ReturnFail IllegalParameters
            "--count value must be a positive integer"))
  /\ (~ not_positive (flag model "count") ->
      not_positive (flag model "interval") ->
      FileAppendActionExecutor.Exec f host uid ctx model
      = ret (ReturnFail IllegalParameters
               "--interval value must be a positive integer")).
Proof.
  rewrite (append_Exec_start host uid ctx model f ch Henv Hch Hstart).
  split.
  - intros Hc. now rewrite (not_positive_rejected _ Hc).
  - intros Hc Hi. destruct (positive_accepted _ Hc) as [count [-> _]].
    now rewrite (not_positive_rejected _ Hi).
Qed.

Lemma count_is_judged_before_interval_and_file_holds :
  FileAppendActionExecutor.Exec bound_append full_host "uid" create_ctx
    (model_of [("filepath", "/tmp/none.log"); ("count", "-2");
               ("interval", "soon")])
  = ret (ReturnFail IllegalParameters
           "--count value must be a positive integer").
Proof.
  refine (proj1 (count_is_judged_before_interval_and_file bound_append
                   echo_channel full_host "uid" create_ctx
                   (model_of [("filepath", "/tmp/none.log"); ("count", "-2");
                              ("interval", "soon")])
                   eq_refl eq_refl eq_refl) _).
  split; [discriminate | vm_compute; reflexivity].
Defined.

(** ** The numbers file append writes *)

(** X6.  Whenever a create request to file append reaches [Run], the
    count and the interval in the argument string are integers between 1 and
    the largest [int]: nothing below 1 is ever handed to the program. *)
Theorem start_writes_numbers_from_one_up
  (f : FileAppendActionExecutor.t) (host : Host) (uid : string)
  (ctx : Context) (model : ExpModel) (call : RunCall)
  (Hstart : snd (IsDestroy ctx) = false)
  (Hcall : In call (runs (FileAppendActionExecutor.Exec f host uid ctx model))) :
  exists count interval : Z,
    1 <= count <= maxInt /\ 1 <= interval <= maxInt
    /\ run_args call
       = render "--start"
           ([Quoted "filepath" (flag model "filepath");
             Quoted "content" (flag model "content");
             Bare "count" (fmt_d count);
             Bare "interval" (fmt_d interval);
             Assigned "debug" (fmt_t (Debug host))]
            ++ switch model "escape" ++ switch model "enable-base64").
Proof.
  rewrite append_Exec_cases in Hcall.
  destruct (checkAppendFileExpEnv host); [destruct Hcall |].
  destruct (FileAppendActionExecutor.channel f) as [ch|]; [| destruct Hcall].
  rewrite Hstart in Hcall.
  destruct (positive_or_default (flag model "count")) as [count|] eqn:Ec;
    [| destruct Hcall].
  destruct (positive_or_default (flag model "interval")) as [interval|] eqn:Ei;
    [| destruct Hcall].
  destruct (IsExist host (flag model "filepath")); [| destruct Hcall].
  rewrite start_calls in Hcall. destruct Hcall as [<- | []].
  exists count, interval.
  split; [now apply positive_or_default_in_range in Ec |].
  split; [now apply positive_or_default_in_range in Ei |].
  reflexivity.
Qed.

Lemma start_writes_numbers_from_one_up_holds :
  exists count interval : Z,
    1 <= count <= maxInt /\ 1 <= interval <= maxInt
    /\ "--start --filepath " +:+ dq +:+ "/tmp/a.log" +:+ dq +:+ " --content "
       +:+ dq +:+ "hi" +:+ dq +:+ " --count 12 --interval 1 --debug=false"
       = render "--start"
           [Quoted "filepath" "/tmp/a.log"; Quoted "content" "hi";
            Bare "count" (fmt_d count); Bare "interval" (fmt_d interval);
            Assigned "debug" "false"].
Proof.
  apply (start_writes_numbers_from_one_up bound_append full_host "uid"
           create_ctx
           (model_of [("filepath", "/tmp/a.log"); ("content", "hi");
                      ("count", "012")])
           {| run_ctx := create_ctx;
              run_script := "/opt/chaosblade/bin/chaos_appendfile";
              run_args := "--start --filepath " +:+ dq +:+ "/tmp/a.log"
                          +:+ dq +:+ " --content " +:+ dq +:+ "hi" +:+ dq
                          +:+ " --count 12 --interval 1 --debug=false" |}
           eq_refl).
  left. vm_compute. reflexivity.
Defined.

(** X7.  A create request to file append that leaves [count] and
    [interval] out (or gives them empty) is run with [--count 1] and
    [--interval 1]. *)
Theorem absent_count_and_interval_are_one
  (f : FileAppendActionExecutor.t) (ch : Channel) (host : Host)
  (uid : string) (ctx : Context) (model : ExpModel)
  (Henv : checkAppendFileExpEnv host = None)
  (Hch : FileAppendActionExecutor.channel f = Some ch)
  (Hstart : snd (IsDestroy ctx) = false)
  (Hcount : flag model "count" = EmptyString)
  (Hinterval : flag model "interval" = EmptyString)
  (Hexists : IsExist host (flag model "filepath") = true) :
  runs (FileAppendActionExecutor.Exec f host uid ctx model)
  = [ {| run_ctx := ctx;
         run_script := Join [GetScriptPath ch; AppendFileBin];
         run_args :=
           render "--start"
             ([Quoted "filepath" (flag model "filepath");
               Quoted "content" (flag model "content");
               Bare "count" "1"; Bare "interval" "1";
               Assigned "debug" (fmt_t (Debug host))]
              ++ switch model "escape" ++ switch model "enable-base64") |} ].
Proof.
  rewrite (append_Exec_start host uid ctx model f ch Henv Hch Hstart).
  now rewrite Hcount, Hinterval, Hexists.
Qed.

Lemma absent_count_and_interval_are_one_holds :
  runs (FileAppendActionExecutor.Exec bound_append full_host "uid" create_ctx
          (model_of [("filepath", "/tmp/a.log"); ("content", "hi")]))
  = [ {| run_ctx := create_ctx;
         run_script := "/opt/chaosblade/bin/chaos_appendfile";
         run_args := "--start --filepath " +:+ dq +:+ "/tmp/a.log" +:+ dq
                     +:+ " --content " +:+ dq +:+ "hi" +:+ dq
                     +:+ " --count 1 --interval 1 --debug=false" |} ].
Proof.
  exact (absent_count_and_interval_are_one bound_append echo_channel
           full_host "uid" create_ctx
           (model_of [("filepath", "/tmp/a.log"); ("content", "hi")])
           eq_refl eq_refl eq_refl eq_refl eq_refl eq_refl).
Defined.

(** X8.  File append uses [count] and [interval] by their value, not by
    their spelling: replacing them by texts that validate to the same
    numbers (with empty standing for 1) changes nothing in what [Exec] does,
    on any path. *)
Theorem count_and_interval_count_by_value
  (f : FileAppendActionExecutor.t) (host : Host) (uid : string)
  (ctx : Context) (model : ExpModel) (count interval : string)
  (Hcount : positive_or_default count
            = positive_or_default (flag model "count"))
  (Hinterval : positive_or_default interval
               = positive_or_default (flag model "interval")) :
  FileAppendActionExecutor.Exec f host uid ctx
    (with_flag (with_flag model "count" count) "interval" interval)
  = FileAppendActionExecutor.Exec f host uid ctx model.
Proof.
  apply append_Exec_by_value;
    rewrite ?flag_with_flag_eq, ?flag_with_flag_ne by discriminate;
    rewrite ?flag_with_flag_eq, ?flag_with_flag_ne by discriminate;
    auto.
Qed.

Lemma count_and_interval_count_by_value_holds :
  FileAppendActionExecutor.Exec bound_append full_host "uid" create_ctx
    (with_flag
       (with_flag
          (model_of [("filepath", "/tmp/a.log"); ("content", "hi");
                     ("count", "3")])
          "count" "+03")
       "interval" "1")
  = FileAppendActionExecutor.Exec bound_append full_host "uid" create_ctx
      (model_of [("filepath", "/tmp/a.log"); ("content", "hi");
                 ("count", "3")]).
Proof.
  apply (count_and_interval_count_by_value bound_append full_host "uid"
           create_ctx
           (model_of [("filepath", "/tmp/a.log"); ("content", "hi");
                      ("count", "3")])
           "+03" "1");
    vm_compute; reflexivity.
Defined.

(** X9.  The numbers file append writes are numbers it accepts: a request
    whose [count] and [interval] are replaced by the decimal texts that
    [Exec] hands to the program is treated exactly as the original. *)
Theorem written_numbers_are_accepted_unchanged
  (f : FileAppendActionExecutor.t) (host : Host) (uid : string)
  (ctx : Context) (model : ExpModel) (count interval : Z)
  (Hcount : positive_or_default (flag model "count") = Some count)
  (Hinterval : positive_or_default (flag model "interval") = Some interval) :
  Atoi (fmt_d count) = Some count
  /\ Atoi (fmt_d interval) = Some interval
  /\ FileAppendActionExecutor.Exec f host uid ctx
       (with_flag (with_flag model "count" (fmt_d count))
          "interval" (fmt_d interval))
     = FileAppendActionExecutor.Exec f host uid ctx model.
Proof.
  pose proof (positive_or_default_in_range _ _ Hcount) as Rc.
  pose proof (positive_or_default_in_range _ _ Hinterval) as Ri.
  split; [apply Atoi_fmt_d; unfold minInt; lia |].
  split; [apply Atoi_fmt_d; unfold minInt; lia |].
  apply append_Exec_by_value;
    rewrite ?flag_with_flag_eq, ?flag_with_flag_ne by discriminate;
    rewrite ?flag_with_flag_eq, ?flag_with_flag_ne by discriminate;
    rewrite ?positive_or_default_fmt_d by assumption; auto.
Qed.

Lemma written_numbers_are_accepted_unchanged_holds :
  Atoi (fmt_d 7) = Some 7
  /\ Atoi (fmt_d 1) = Some 1
  /\ FileAppendActionExecutor.Exec bound_append full_host "uid" create_ctx
       (with_flag
          (with_flag
             (model_of [("filepath", "/tmp/a.log"); ("count", "+007")])
             "count" (fmt_d 7))
          "interval" (fmt_d 1))
     = FileAppendActionExecutor.Exec bound_append full_host "uid" create_ctx
         (model_of [("filepath", "/tmp/a.log"); ("count", "+007")]).
Proof.
  exact (written_numbers_are_accepted_unchanged bound_append full_host "uid"
           create_ctx
           (model_of [("filepath", "/tmp/a.log"); ("count", "+007")])
           7 1 eq_refl eq_refl).
Defined.

(** ** Flags that are read and flags that are not *)

(** X10.  The switches are taken only when their value is the text
    [true], in lower case: any other value of [ignore-not-found], [escape]
    or [enable-base64] has the effect of leaving the flag out. *)
Theorem switches_need_the_text_true
  (spe : StopProcessExecutor.t) (f : FileAppendActionExecutor.t)
  (host : Host) (uid : string) (ctx : Context) (model : ExpModel)
  (value : string)
  (Hvalue : value <> "true") :
  StopProcessExecutor.Exec spe host uid ctx
    (with_flag model "ignore-not-found" value)
  = StopProcessExecutor.Exec spe host uid ctx
      (without_flag model "ignore-not-found")
  /\ FileAppendActionExecutor.Exec f host uid ctx
       (with_flag model "escape" value)
     = FileAppendActionExecutor.Exec f host uid ctx
         (without_flag model "escape")
  /\ FileAppendActionExecutor.Exec f host uid ctx
       (with_flag model "enable-base64" value)
     = FileAppendActionExecutor.Exec f host uid ctx
         (without_flag model "enable-base64").
Proof.
  assert (Hne : String.eqb value "true" = false)
    by (now destruct (String.eqb_spec value "true")).
  split; [| split].
  - apply stop_Exec_ext;
      rewrite ?flag_with_flag_eq, ?flag_without_flag_eq,
        ?flag_with_flag_ne, ?flag_without_flag_ne by discriminate;
      auto.
  - apply append_Exec_by_value;
      rewrite ?flag_with_flag_eq, ?flag_without_flag_eq,
        ?flag_with_flag_ne, ?flag_without_flag_ne by discriminate;
      auto.
  - apply append_Exec_by_value;
      rewrite ?flag_with_flag_eq, ?flag_without_flag_eq,
        ?flag_with_flag_ne, ?flag_without_flag_ne by discriminate;
      auto.
Qed.

Lemma switches_need_the_text_true_holds :
  StopProcessExecutor.Exec bound_stop full_host "uid" create_ctx
    (with_flag (model_of [("process", "nginx")]) "ignore-not-found" "True")
  = StopProcessExecutor.Exec bound_stop full_host "uid" create_ctx
      (without_flag (model_of [("process", "nginx")]) "ignore-not-found").
Proof.
  refine (proj1 (switches_need_the_text_true bound_stop bound_append
                   full_host "uid" create_ctx
                   (model_of [("process", "nginx")]) "True" _)).
  discriminate.
Defined.

(** X11.  In process stop the process name takes precedence: once
    [process] is given, the value of [process-cmd] has no effect on what
    [Exec] does. *)
Theorem process_takes_precedence_over_process_cmd
  (spe : StopProcessExecutor.t) (host : Host) (uid : string) (ctx : Context)
  (model : ExpModel) (cmd : string)
  (Hprocess : flag model "process" <> EmptyString) :
  StopProcessExecutor.Exec spe host uid ctx
    (with_flag model "process-cmd" cmd)
  = StopProcessExecutor.Exec spe host uid ctx model.
Proof.
  unfold StopProcessExecutor.Exec.
  rewrite (flag_with_flag_ne model "process-cmd" "process" cmd)
    by discriminate.
  rewrite (flag_with_flag_ne model "process-cmd" "ignore-not-found" cmd)
    by discriminate.
  destruct (String.eqb_spec (flag model "process") EmptyString);
    [contradiction |].
  cbn [andb negb]. reflexivity.
Qed.

Lemma process_takes_precedence_over_process_cmd_holds :
  StopProcessExecutor.Exec bound_stop full_host "uid" create_ctx
    (with_flag (model_of [("process", "nginx")]) "process-cmd" "java")
  = StopProcessExecutor.Exec bound_stop full_host "uid" create_ctx
      (model_of [("process", "nginx")]).
Proof.
  apply (process_takes_precedence_over_process_cmd bound_stop full_host
           "uid" create_ctx (model_of [("process", "nginx")]) "java").
  intros H. vm_compute in H. discriminate.
Defined.

(** ** Descriptor and executor in step *)

(** X12.  File append reads no flag that its descriptor does not declare,
    provided the shared file matchers declare [filepath]: two models that
    agree on every declared flag are treated alike. *)
Theorem append_reads_declared_flags_only
  (SystemFile : string) (fileCommFlags : list spec.ExpFlag)
  (f : FileAppendActionExecutor.t) (host : Host) (uid : string)
  (ctx : Context) (model model' : ExpModel)
  (Hfilepath : In "filepath" (map spec.Name fileCommFlags))
  (Hagree : forall name : string,
      In name (declared_flags
                 (NewFileAppendActionSpec SystemFile fileCommFlags)) ->
      flag model' name = flag model name) :
  FileAppendActionExecutor.Exec f host uid ctx model'
  = FileAppendActionExecutor.Exec f host uid ctx model.
Proof.
  assert (Hflags : forall name : string,
    In name ["content"; "count"; "interval"; "escape"; "enable-base64"] ->
    flag model' name = flag model name).
  { intros name H. apply Hagree. unfold declared_flags.
    rewrite map_app. apply in_or_app. right. exact H. }
  assert (Hfp : flag model' "filepath" = flag model "filepath").
  { apply Hagree. unfold declared_flags. rewrite map_app.
    apply in_or_app. left. exact Hfilepath. }
  apply append_Exec_by_value; try exact Hfp;
    rewrite Hflags by (cbn [In]; tauto); reflexivity.
Qed.

Lemma append_reads_declared_flags_only_holds :
  FileAppendActionExecutor.Exec bound_append full_host "uid" create_ctx
    (with_flag (model_of [("filepath", "/tmp/a.log"); ("content", "hi")])
       "timeout" "30")
  = FileAppendActionExecutor.Exec bound_append full_host "uid" create_ctx
      (model_of [("filepath", "/tmp/a.log"); ("content", "hi")]).
Proof.
  apply (append_reads_declared_flags_only "system_file"
           [ {| spec.Name := "filepath"; spec.Desc := "file path";
                spec.NoArgs := false; spec.Required := true |} ]
           bound_append full_host "uid" create_ctx
           (model_of [("filepath", "/tmp/a.log"); ("content", "hi")])
           (with_flag (model_of [("filepath", "/tmp/a.log");
                                 ("content", "hi")]) "timeout" "30")).
  - left. reflexivity.
  - intros name H. apply flag_with_flag_ne.
    cbn in H. intuition (subst; discriminate).
Defined.

(** X13.  Process stop reads one flag that its descriptor does not
    declare.  What [Exec] does is settled by the two declared matchers
    together with [ignore-not-found], and [ignore-not-found] is neither a
    matcher nor an action flag of the descriptor although it changes the
    argument string. *)
Theorem stop_reads_undeclared_ignore_not_found
  (SystemProcess : string) (spe : StopProcessExecutor.t) (ch : Channel)
  (host : Host) (uid : string) (ctx : Context)
  (Hch : StopProcessExecutor.channel spe = Some ch) :
  (forall model model' : ExpModel,
     (forall name : string,
        In name (declared_flags
                   (NewStopProcessActionCommandSpec SystemProcess)) ->
        flag model' name = flag model name) ->
     flag model' "ignore-not-found" = flag model "ignore-not-found" ->
     StopProcessExecutor.Exec spe host uid ctx model'
     = StopProcessExecutor.Exec spe host uid ctx model)
  /\ ~ In "ignore-not-found"
         (declared_flags (NewStopProcessActionCommandSpec SystemProcess))
  /\ (exists model model' : ExpModel,
        (forall name : string,
           In name (declared_flags
                      (NewStopProcessActionCommandSpec SystemProcess)) ->
           flag model' name = flag model name)
        /\ map run_args
             (runs (StopProcessExecutor.Exec spe host uid ctx model'))
           <> map run_args
                (runs (StopProcessExecutor.Exec spe host uid ctx model))).
Proof.
  split; [| split].
  - intros model model' Hagree Hignore.
    apply stop_Exec_ext;
      [apply Hagree; cbn; tauto | apply Hagree; cbn; tauto |
       now rewrite Hignore].
  - cbn. intuition discriminate.
  - exists (model_of [("process", "nginx")]),
      (with_flag (model_of [("process", "nginx")]) "ignore-not-found" "true").
    split.
    + intros name H. apply flag_with_flag_ne.
      cbn in H. intuition (subst; discriminate).
    + assert (Hm : forall m : ExpModel,
        flag m "process" = "nginx" ->
        ~ (flag m "process" = EmptyString
           /\ flag m "process-cmd" = EmptyString)).
      { intros m -> [H _]. discriminate. }
      rewrite (stop_Exec_delegates host uid ctx
                 (model_of [("process", "nginx")]) spe ch Hch)
        by (apply Hm; reflexivity).
      rewrite (stop_Exec_delegates host uid ctx
                 (with_flag (model_of [("process", "nginx")])
                    "ignore-not-found" "true") spe ch Hch)
        by (apply Hm; reflexivity).
      unfold call_Run, runs; cbn [snd map run_args].
      rewrite !(render_from_mode (mode_flag ctx)).
      intros [= H]. apply String.app_inj in H. revert H.
      destruct (Debug host); vm_compute; discriminate.
Qed.

Lemma stop_reads_undeclared_ignore_not_found_holds :
  ~ In "ignore-not-found"
      (declared_flags (NewStopProcessActionCommandSpec "system_process"))
  /\ declared_flags (NewStopProcessActionCommandSpec "system_process")
     = ["process"; "process-cmd"].
Proof.
  split; [| reflexivity].
  exact (proj1 (proj2 (stop_reads_undeclared_ignore_not_found
                         "system_process" bound_stop echo_channel full_host
                         "uid" create_ctx eq_refl))).
Defined.

(** ** The program that is run *)

Lemma stop_call_shape (spe : StopProcessExecutor.t) (host : Host)
  (uid : string) (ctx : Context) (model : ExpModel) (call : RunCall) :
  In call (runs (StopProcessExecutor.Exec spe host uid ctx model)) ->
  exists (ch : Channel) (args : string),
    StopProcessExecutor.channel spe = Some ch
    /\ call = {| run_ctx := ctx;
                 run_script := Join [GetScriptPath ch; StopProcessBin];
                 run_args := args |}
    /\ response (StopProcessExecutor.Exec spe host uid ctx model)
       = Run ch ctx (Join [GetScriptPath ch; StopProcessBin]) args.
Proof.
  destruct (StopProcessExecutor.channel spe) as [ch|] eqn:Hch.
  - destruct (String.eqb_spec (flag model "process") EmptyString) as [Hp|Hp];
      [destruct (String.eqb_spec (flag model "process-cmd") EmptyString)
         as [Hc|Hc] |].
    + rewrite (stop_Exec_no_matcher host uid ctx model spe ch Hch Hp Hc).
      intros [].
    + rewrite (stop_Exec_delegates host uid ctx model spe ch Hch) by tauto.
      intros [<- | []]. exists ch. eexists. repeat split.
    + rewrite (stop_Exec_delegates host uid ctx model spe ch Hch) by tauto.
      intros [<- | []]. exists ch. eexists. repeat split.
  - rewrite (stop_Exec_unbound host uid ctx model spe Hch). intros [].
Qed.

Lemma append_call_shape (f : FileAppendActionExecutor.t) (host : Host)
  (uid : string) (ctx : Context) (model : ExpModel) (call : RunCall) :
  In call (runs (FileAppendActionExecutor.Exec f host uid ctx model)) ->
  exists (ch : Channel) (args : string),
    FileAppendActionExecutor.channel f = Some ch
    /\ call = {| run_ctx := ctx;
                 run_script := Join [GetScriptPath ch; AppendFileBin];
                 run_args := args |}
    /\ response (FileAppendActionExecutor.Exec f host uid ctx model)
       = Run ch ctx (Join [GetScriptPath ch; AppendFileBin]) args.
Proof.
  rewrite append_Exec_cases.
  destruct (checkAppendFileExpEnv host); [intros [] |].
  destruct (FileAppendActionExecutor.channel f) as [ch|]; [| intros []].
  destruct (snd (IsDestroy ctx)).
  { rewrite stop_calls. intros [<- | []]. exists ch. eexists. repeat split. }
  destruct (positive_or_default (flag model "count")); [| intros []].
  destruct (positive_or_default (flag model "interval")); [| intros []].
  destruct (IsExist host (flag model "filepath")); [| intros []].
  rewrite start_calls. intros [<- | []]. exists ch. eexists. repeat split.
Qed.

(** X14.  Every call either executor makes runs the one program its
    descriptor names, in some directory: whatever the script path of the
    channel is (empty, relative, with [..] or doubled slashes), the
    executable path that [Run] receives ends in that file name. *)
Theorem exec_runs_the_declared_program
  (SystemProcess SystemFile : string) (fileCommFlags : list spec.ExpFlag)
  (spe : StopProcessExecutor.t) (f : FileAppendActionExecutor.t)
  (host : Host) (uid : string) (ctx : Context) (model : ExpModel)
  (call : RunCall) :
  (In call (runs (StopProcessExecutor.Exec spe host uid ctx model)) ->
   exists dir program : string,
     spec.ActionPrograms (NewStopProcessActionCommandSpec SystemProcess)
     = [program]
     /\ run_script call = dir +:+ program /\ is_dir_prefix dir)
  /\ (In call (runs (FileAppendActionExecutor.Exec f host uid ctx model)) ->
      exists dir program : string,
        spec.ActionPrograms (NewFileAppendActionSpec SystemFile fileCommFlags)
        = [program]
        /\ run_script call = dir +:+ program /\ is_dir_prefix dir).
Proof.
  split; intros Hcall.
  - destruct (stop_call_shape _ _ _ _ _ _ Hcall) as [ch [args [_ [-> _]]]].
    destruct (Join_ends_with (GetScriptPath ch) StopProcessBin
                StopProcessBin_plain) as [dir [E Hdir]].
    exists dir, StopProcessBin. cbn [run_script]. now rewrite E.
  - destruct (append_call_shape _ _ _ _ _ _ Hcall) as [ch [args [_ [-> _]]]].
    destruct (Join_ends_with (GetScriptPath ch) AppendFileBin
                AppendFileBin_plain) as [dir [E Hdir]].
    exists dir, AppendFileBin. cbn [run_script]. now rewrite E.
Qed.

Lemma exec_runs_the_declared_program_holds :
  exists dir program : string,
    spec.ActionPrograms (NewStopProcessActionCommandSpec "system_process")
    = [program]
    /\ "bin/chaos_stopprocess" = dir +:+ program /\ is_dir_prefix dir.
Proof.
  apply (proj1 (exec_runs_the_declared_program "system_process" "system_file"
                  [] {| StopProcessExecutor.channel :=
                          Some {| Run := Run echo_channel;
                                  GetScriptPath := "./opt/../bin//" |} |}
                  bound_append full_host "uid" create_ctx
                  (model_of [("process", "nginx")])
                  {| run_ctx := create_ctx;
                     run_script := "bin/chaos_stopprocess";
                     run_args := "--start --debug=false --process " +:+ dq
                                 +:+ "nginx" +:+ dq |})).
  left. vm_compute. reflexivity.
Defined.

(** ** From the descriptor to a bound executor *)

(** X15.  The executor that a fresh descriptor carries has no channel:
    process stop answers every request with the ServerError failure, and so
    does file append on a host that passes its check.  Once [SetChannel] has
    bound a channel, neither executor gives that answer by itself any more:
    a request that reaches no [Run] call is refused for its flags (or, for
    file append, for the host), and every call goes to the channel that was
    set, whose response is returned. *)
Theorem fresh_executor_is_unbound_until_SetChannel
  (SystemProcess SystemFile : string) (fileCommFlags : list spec.ExpFlag)
  (ch : Channel) (host : Host) (uid : string) (ctx : Context)
  (model : ExpModel) :
  StopProcessExecutor.Exec
    (spec.ActionExecutor (NewStopProcessActionCommandSpec SystemProcess))
    host uid ctx model
  = ret (ReturnFail ServerError "channel is nil")
  /\ (checkAppendFileExpEnv host = None ->
      FileAppendActionExecutor.Exec
        (spec.ActionExecutor
           (NewFileAppendActionSpec SystemFile fileCommFlags))
        host uid ctx model
      = ret (ReturnFail ServerError "channel is nil"))
  /\ (runs (StopProcessExecutor.Exec
              (StopProcessExecutor.SetChannel
                 (spec.ActionExecutor
                    (NewStopProcessActionCommandSpec SystemProcess))
                 (Some ch)) host uid ctx model) = [] ->
      Code (response
              (StopProcessExecutor.Exec
                 (StopProcessExecutor.SetChannel
                    (spec.ActionExecutor
                       (NewStopProcessActionCommandSpec SystemProcess))
                    (Some ch)) host uid ctx model)) = IllegalParameters)
  /\ (forall call : RunCall,
      In call
        (runs (StopProcessExecutor.Exec
                 (StopProcessExecutor.SetChannel
                    (spec.ActionExecutor
                       (NewStopProcessActionCommandSpec SystemProcess))
                    (Some ch)) host uid ctx model)) ->
      response
        (StopProcessExecutor.Exec
           (StopProcessExecutor.SetChannel
              (spec.ActionExecutor
                 (NewStopProcessActionCommandSpec SystemProcess))
              (Some ch)) host uid ctx model)
      = Run ch ctx (run_script call) (run_args call))
  /\ (runs (FileAppendActionExecutor.Exec
              (FileAppendActionExecutor.SetChannel
                 (spec.ActionExecutor
                    (NewFileAppendActionSpec SystemFile fileCommFlags))
                 (Some ch)) host uid ctx model) = [] ->
      In (Code (response
                  (FileAppendActionExecutor.Exec
                     (FileAppendActionExecutor.SetChannel
                        (spec.ActionExecutor
                           (NewFileAppendActionSpec SystemFile fileCommFlags))
                        (Some ch)) host uid ctx model)))
        [CommandNotFound; IllegalParameters])
  /\ (forall call : RunCall,
      In call
        (runs (FileAppendActionExecutor.Exec
                 (FileAppendActionExecutor.SetChannel
                    (spec.ActionExecutor
                       (NewFileAppendActionSpec SystemFile fileCommFlags))
                    (Some ch)) host uid ctx model)) ->
      response
        (FileAppendActionExecutor.Exec
           (FileAppendActionExecutor.SetChannel
              (spec.ActionExecutor
                 (NewFileAppendActionSpec SystemFile fileCommFlags))
              (Some ch)) host uid ctx model)
      = Run ch ctx (run_script call) (run_args call)).
Proof.
  split; [reflexivity |].
  split; [intros He; now apply append_Exec_unbound |].
  split; [| split; [| split]].
  - assert (Hch : StopProcessExecutor.channel
                    (StopProcessExecutor.SetChannel
                       (spec.ActionExecutor
                          (NewStopProcessActionCommandSpec SystemProcess))
                       (Some ch)) = Some ch) by reflexivity.
    destruct (String.eqb_spec (flag model "process") EmptyString) as [Hp|Hp];
      [destruct (String.eqb_spec (flag model "process-cmd") EmptyString)
         as [Hc|Hc] |].
    + now rewrite (stop_Exec_no_matcher host uid ctx model _ ch Hch Hp Hc).
    + rewrite (stop_Exec_delegates host uid ctx model _ ch Hch) by tauto.
      intros H. discriminate H.
    + rewrite (stop_Exec_delegates host uid ctx model _ ch Hch) by tauto.
      intros H. discriminate H.
  - intros call Hcall.
    destruct (stop_call_shape _ _ _ _ _ _ Hcall)
      as [ch' [args [[= <-] [-> E]]]].
    exact E.
  - rewrite append_Exec_cases, first_missing_echo_kill.
    cbn [FileAppendActionExecutor.SetChannel FileAppendActionExecutor.channel].
    destruct (IsCommandAvailable host "echo"); [| intros _; cbn; tauto].
    destruct (IsCommandAvailable host "kill"); [| intros _; cbn; tauto].
    destruct (snd (IsDestroy ctx)); [rewrite stop_calls; discriminate |].
    destruct (positive_or_default (flag model "count"));
      [| intros _; cbn; tauto].
    destruct (positive_or_default (flag model "interval"));
      [| intros _; cbn; tauto].
    destruct (IsExist host (flag model "filepath"));
      [rewrite start_calls; discriminate | intros _; cbn; tauto].
  - intros call Hcall.
    destruct (append_call_shape _ _ _ _ _ _ Hcall)
      as [ch' [args [[= <-] [-> E]]]].
    exact E.
Qed.
